(** * drf_autodocs: the Endpoint descriptor builder

    A shallow embedding of [drf_autodocs/endpoint.py] and the properties
    of its docstring section parser, docstring assembler, field schema
    resolver and constructor.

    Python [str] values are modelled as [string] over 8-bit characters
    (code points 0..255).  Line boundaries and whitespace follow Python's
    [str.splitlines] and [str.strip] on that range.  Case mapping
    ([upper], [lower], [title]) follows Python on the ASCII letters, which
    is where HTTP method names, action names and route names live. *)

From Stdlib Require Import Ascii String List Bool Arith Lia.
From stdpp Require Import base option list strings gmap.
Import ListNotations.
Local Open Scope string_scope.
Local Open Scope list_scope.
Set Warnings "-register-all".
#[local] Arguments String.append !s1 s2 : simpl nomatch.

(** ** Exceptions *)

Inductive exn :=
| KeyError (key : string)
| AttributeError (what : string)
| TypeError (what : string).

Inductive result (A : Type) :=
| Ok (a : A)
| Raise (e : exn).
Arguments Ok {A} a.
Arguments Raise {A} e.

#[global] Instance result_ret : MRet result := fun _ a => Ok a.
#[global] Instance result_bind : MBind result := fun _ _ f m =>
  match m with Ok a => f a | Raise e => Raise e end.

Definition is_ok {A} (r : result A) : bool :=
  match r with Ok _ => true | Raise _ => false end.

(** ** Characters *)

Module Chr.

Definition TAB : ascii := "009"%char.
Definition LF : ascii := "010"%char.
Definition CR : ascii := "013"%char.
Definition SP : ascii := " "%char.

Definition code (c : ascii) : nat := nat_of_ascii c.

Definition between (lo hi : nat) (c : ascii) : bool :=
  Nat.leb lo (code c) && Nat.leb (code c) hi.

(** [[A-Z]], [[a-z]], [[0-9]] *)
Definition is_upper (c : ascii) : bool := between 65 90 c.
Definition is_lower (c : ascii) : bool := between 97 122 c.
Definition is_digit (c : ascii) : bool := between 48 57 c.

(** [[a-zA-Z]] *)
Definition is_letter (c : ascii) : bool := is_lower c || is_upper c.

(** [[0-9A-Za-z_]] *)
Definition is_word (c : ascii) : bool :=
  is_digit c || is_upper c || is_lower c || Ascii.eqb c "_".

(** [str.isspace] on code points below 256: what [str.strip()] removes. *)
Definition is_space (c : ascii) : bool :=
  between 9 13 c || between 28 32 c
  || Nat.eqb (code c) 133 || Nat.eqb (code c) 160.

(** The line boundaries of [str.splitlines] below 256. *)
Definition is_linebreak (c : ascii) : bool :=
  between 10 13 c || between 28 30 c || Nat.eqb (code c) 133.

Definition to_upper (c : ascii) : ascii :=
  if is_lower c then ascii_of_nat (code c - 32) else c.
Definition to_lower (c : ascii) : ascii :=
  if is_upper c then ascii_of_nat (code c + 32) else c.

End Chr.

(** ** Python string methods *)

Module Str.

Fixpoint map (f : ascii -> ascii) (s : string) : string :=
  match s with
  | EmptyString => EmptyString
  | String c s' => String (f c) (map f s')
  end.

Fixpoint all (p : ascii -> bool) (s : string) : bool :=
  match s with
  | EmptyString => true
  | String c s' => p c && all p s'
  end.

Fixpoint mem (a : ascii) (s : string) : bool :=
  match s with
  | EmptyString => false
  | String c s' => Ascii.eqb a c || mem a s'
  end.

(** [s.upper()], [s.lower()] *)
Definition upper : string -> string := map Chr.to_upper.
Definition lower : string -> string := map Chr.to_lower.

(** [s.title()] on a string of ASCII characters: a cased character is
    upper-cased when it follows an uncased one (or starts the string) and
    lower-cased otherwise. *)
Fixpoint title_from (previous_is_cased : bool) (s : string) : string :=
  match s with
  | EmptyString => EmptyString
  | String c s' =>
      String (if previous_is_cased then Chr.to_lower c else Chr.to_upper c)
             (title_from (Chr.is_letter c) s')
  end.
Definition title : string -> string := title_from false.

(** [s.startswith(p)] *)
Fixpoint startswith (p s : string) : bool :=
  match p, s with
  | EmptyString, _ => true
  | String a p', String c s' => Ascii.eqb a c && startswith p' s'
  | String _ _, EmptyString => false
  end.

(** [s.replace(old, new)] for a non-empty [old]: occurrences are replaced
    left to right without overlap; [skip] counts the characters of the
    occurrence just replaced that are still to be dropped. *)
Fixpoint replace_from (old new : string) (skip : nat) (s : string) : string :=
  match s with
  | EmptyString => EmptyString
  | String c s' =>
      match skip with
      | S k => replace_from old new k s'
      | O =>
          if startswith old s
          then new +:+ replace_from old new (String.length old - 1) s'
          else String c (replace_from old new 0 s')
      end
  end.
Definition replace (old new s : string) : string := replace_from old new 0 s.

(** [s.lstrip(chars)], [s.rstrip(chars)], with the set of characters to
    remove given as a predicate. *)
Fixpoint lstrip_by (p : ascii -> bool) (s : string) : string :=
  match s with
  | EmptyString => EmptyString
  | String c s' => if p c then lstrip_by p s' else s
  end.

Fixpoint rstrip_by (p : ascii -> bool) (s : string) : string :=
  match s with
  | EmptyString => EmptyString
  | String c s' =>
      match rstrip_by p s' with
      | EmptyString => if p c then EmptyString else String c EmptyString
      | r => String c r
      end
  end.

(** [s.strip()] *)
Definition strip (s : string) : string :=
  lstrip_by Chr.is_space (rstrip_by Chr.is_space s).

(** [s.rstrip('/')], [s.lstrip('/')] *)
Definition rstrip_slash : string -> string := rstrip_by (Ascii.eqb "/").
Definition lstrip_slash : string -> string := lstrip_by (Ascii.eqb "/").

(** [s.partition(sep)] for a one-character separator: the text before the
    first occurrence, the separator, the text after it; when the separator
    does not occur, the whole string and two empty strings. *)
Fixpoint partition (sep : ascii) (s : string) : string * string * string :=
  match s with
  | EmptyString => (EmptyString, EmptyString, EmptyString)
  | String c s' =>
      if Ascii.eqb c sep then (EmptyString, String sep EmptyString, s')
      else
        match partition sep s' with
        | (before, EmptyString, _) => (s, EmptyString, EmptyString)
        | (before, found, after) => (String c before, found, after)
        end
  end.

(** [s.splitlines()]: the lines of [s] without their boundaries; ["\r\n"]
    is one boundary; a final boundary opens no further line. *)
Definition push_char (c : ascii) (lines : list string) : list string :=
  match lines with
  | [] => [String c EmptyString]
  | l :: ls => String c l :: ls
  end.

Fixpoint splitlines_from (after_cr : bool) (s : string) : list string :=
  match s with
  | EmptyString => []
  | String c s' =>
      if after_cr && Ascii.eqb c Chr.LF then splitlines_from false s'
      else if Chr.is_linebreak c
           then EmptyString :: splitlines_from (Ascii.eqb c Chr.CR) s'
           else push_char c (splitlines_from false s')
  end.
Definition splitlines : string -> list string := splitlines_from false.

(** ['sep'.join(parts)] with an empty separator. *)
Fixpoint concat (parts : list string) : string :=
  match parts with
  | [] => EmptyString
  | p :: ps => p +:+ concat ps
  end.

End Str.

Definition nl : string := String Chr.LF EmptyString.
Definition tab : string := String Chr.TAB EmptyString.

(** ** Regular expressions

    The fragment of [re] the module compiles: a sequence of character
    classes, each taken once or under a greedy star, anchored at the start
    of the subject ([re.match], and the leading [^]).  The matcher
    backtracks the way [re] does: a star first takes one more character
    and, if the rest of the pattern then fails, gives it back. *)

Module Re.

Inductive item :=
| One (class : ascii -> bool)
| Many (class : ascii -> bool).

Definition pattern := list item.

Fixpoint matches (p : pattern) : string -> bool :=
  match p with
  | [] => fun _ => true
  | One class :: p' => fun s =>
      match s with
      | EmptyString => false
      | String c s' => class c && matches p' s'
      end
  | Many class :: p' =>
      fix star (s : string) : bool :=
        match s with
        | EmptyString => matches p' s
        | String c s' => (class c && star s') || matches p' s
        end
  end.

End Re.

(** ** The docstring section parser *)

(** [re.compile('^[a-zA-Z][0-9A-Za-z_]*:')] *)
Definition header_regex : Re.pattern :=
  [Re.One Chr.is_letter; Re.Many Chr.is_word; Re.One (Ascii.eqb ":")].

(** [self.header_regex.match(line)], as a truth value. *)
Definition header_match (line : string) : bool := Re.matches header_regex line.

(** The loop of [_parse_docs_to_map] over the remaining lines.
    [sections[current_section] += ...] reads the entry first, which raises
    [KeyError] when it is missing. *)
Fixpoint parse_lines (lines : list string) (current_section : string)
    (sections : gmap string string) : result (gmap string string) :=
  match lines with
  | [] => Ok sections
  | line :: rest =>
      if header_match line then
        let '(current_section, seperator, lead) := Str.partition ":" line in
        parse_lines rest current_section
          (<[current_section := Str.strip lead]> sections)
      else
        match sections !! current_section with
        | Some body =>
            parse_lines rest current_section
              (<[current_section := body +:+ nl +:+ Str.replace tab "  " line]>
                 sections)
        | None => Raise (KeyError current_section)
        end
  end.

Definition _parse_docs_to_map (doc : string) : result (gmap string string) :=
  parse_lines (Str.splitlines doc) "" {[ "" := "" ]}.

(** ** The framework objects the constructor inspects

    Each record keeps the attributes that [endpoint.py] reads.  An
    attribute probed with [hasattr] is an [option]: [None] when the object
    does not have it. *)

(** A class or function as far as its name and docstring go. *)
Record pyobject := {
  __name__ : string;
  (** [obj.__doc__], [None] when no docstring was written *)
  __doc__ : option string;
  (** [inspect.getdoc(obj)] *)
  getdoc : option string
}.

(** A field or serializer instance of [rest_framework]. *)
Record field_attrs := {
  class_name : string;                  (* field.__class__.__name__ *)
  read_only : bool;
  required : bool;
  write_only : bool;
  help_text : option string;
  has_many : bool;                      (* hasattr(field, 'many') *)
  (** [field.choices] when [isinstance(field, ChoiceField)] *)
  choices : option (list (string * string));
  is_RelatedField : bool;
  is_ManyRelatedField : bool;
  (** [field.queryset.model.__name__], when [field] has a [queryset]
      and the queryset has a [model] *)
  queryset_model : option string;
  (** [field.child_relation.queryset.model.__name__], when all of these
      attributes exist *)
  child_relation_model : option string
}.

(** [Obj attrs is_BaseSerializer get_fields meta_model child]:
    - [get_fields]: the items of [obj.get_fields()], in order, when the
      object has that method;
    - [meta_model]: the attributes of [obj.Meta.model] ([None] when
      [obj.Meta.model] does not resolve), each with
      [attr.field.related_model.__name__] when that resolves;
    - [child]: [obj.child].
    Values of this type are finite trees: a serializer that nests itself
    has no counterpart here. *)
Inductive obj :=
| Obj (attrs : field_attrs) (is_BaseSerializer : bool)
      (get_fields : option (list (string * obj)))
      (meta_model : option (list (string * option string)))
      (child : option obj).

Definition attrs_of (o : obj) : field_attrs :=
  match o with Obj a _ _ _ _ => a end.
Definition is_BaseSerializer (o : obj) : bool :=
  match o with Obj _ b _ _ _ => b end.

(** An entry of [builtin_docs.filter_backends]: a text, or a function
    from the view's search fields to a text. *)
Inductive builtin_doc :=
| DocText (text : string)
| DocRender (render : list string -> string).

Record filter_backend := {
  fb_class : pyobject;
  fb_is_SearchFilter : bool            (* f is SearchFilter *)
}.

(** The documentation recorded for a filter backend: its registry entry,
    the text rendered for the search filter, or its own docstring. *)
Inductive filter_doc :=
| RegistryEntry (entry : builtin_doc)
| Rendered (text : string)
| FromGetdoc (doc : option string).

(** [view.cls] *)
Record view_class := {
  cls_object : pyobject;
  http_method_names : list string;
  (** [hasattr(cls, m)] *)
  cls_hasattr : string -> bool;
  has_allowed_methods : bool;
  get_extra_actions : list pyobject;
  cls_extra_url_params : option string;
  cls_filter_backends : option (list filter_backend);
  search_filters : option (list string);
  (** the outer [option] is [hasattr], the inner one is [is not None] *)
  cls_authentication_classes : option (option (list pyobject));
  cls_permission_classes : option (option (list pyobject));
  req_res_autodocs : bool;              (* hasattr(cls, 'req_res_autodocs') *)
  (** a serializer class is modelled by the instance that calling it
      yields; the inner [None] is Python's [None] *)
  serializer_class : option (option obj);
  response_serializer_class : option (option obj)
}.

(** [pattern.callback] *)
Record view := {
  view_name : string;                   (* view.__name__ *)
  (** the items of the dict [view.actions], in order: HTTP method name
      and action name *)
  actions : option (list (string * string));
  cls : view_class
}.

(** The value of a [_regex] attribute: a [str], or an object of another
    type (a lazily translated string, [None]). *)
Inductive pyvalue :=
| PyStr (s : string)
| PyOther.

(** [pattern.pattern] *)
Record route_pattern := {
  route_regex : option pyvalue;         (* pattern.pattern._regex *)
  route_str : string                    (* str(pattern.pattern) *)
}.

Record url_pattern := {
  callback : view;
  pattern_name : option string;         (* pattern.name, possibly None *)
  _regex : option pyvalue;              (* pattern._regex *)
  pattern : option route_pattern
}.

(** [django.conf.settings] *)
Record settings := {
  AUTODOCS_ENDPOINT_NAMES : option string
}.

(** ** The Endpoint *)

Inductive field_data := FieldData {
  fd_name : string;
  fd_read_only : bool;
  fd_type : string;
  fd_sub_fields : option (list field_data);
  fd_required : bool;
  fd_to_many_relation : bool;
  fd_help_text : option string;
  fd_write_only : bool;
  fd_choices : option (list (string * string))
}.

Record Endpoint := {
  id : nat;
  extra_method : option pyobject;
  methods : list string;
  complete_path : string;
  name : string;
  extra_url_params : option string;
  filter_backends : option (list (string * filter_doc));
  authentication_classes : option (list (string * option string));
  permission_classes : option (list (string * option string));
  docstring : string;
  input_fields : option (list field_data);
  output_fields : option (list field_data);
  input_fields_text : option string;
  output_fields_text : option string
}.

(** A Python dict as the list of its items in insertion order:
    [d[k] = v] overwrites the value of an existing key in place and
    appends a new key at the end. *)
Fixpoint dict_set {V} (k : string) (v : V) (d : list (string * V))
    : list (string * V) :=
  match d with
  | [] => [(k, v)]
  | (k', v') :: d' =>
      if String.eqb k' k then (k, v) :: d' else (k', v') :: dict_set k v d'
  end.

(** [{key(x): val(x) for x in xs}] *)
Definition dict_of {A V} (key : A -> string) (val : A -> V) (xs : list A)
    : list (string * V) :=
  fold_left (fun d x => dict_set (key x) (val x) d) xs [].

(** A value of the map [_get_doc] iterates: an action name (a [str]) or
    a handler function of the view class. *)
Inductive action_target :=
| ActionName (action : string)
| HandlerFunction (method : string).

(** [set(methods) == {'GET', 'OPTIONS'}] *)
Definition is_get_options (methods : list string) : bool :=
  bool_decide (list_to_set methods =@{gset string} {[ "GET"; "OPTIONS" ]}).

(** [django.utils.encoding.smart_text] on a docstring: [str(None)] for a
    missing one. *)
Definition smart_text (doc : option string) : string :=
  match doc with
  | Some s => s
  | None => "None"
  end.

(** ['{}\nRequires/renders pk(id) of {} as integer'.format(...)] and
    ["{}\nRequires/renders list of pk's(id's) of {} objects.".format(...)],
    with [field.help_text if field.help_text else ""] as first argument. *)
Definition help_or_empty (h : option string) : string := default "" h.

Definition pk_help (h : option string) (model : string) : string :=
  help_or_empty h +:+ nl +:+ "Requires/renders pk(id) of " +:+ model
  +:+ " as integer".

Definition pk_list_help (h : option string) (model : string) : string :=
  help_or_empty h +:+ nl +:+ "Requires/renders list of pk's(id's) of "
  +:+ model +:+ " objects.".

(** The [sub_fields] entry: lines 179-185. *)
Definition sub_fields_of (resolve : obj -> result (list field_data))
    (field : obj) : result (option (list field_data)) :=
  match field with
  | Obj a is_serializer _ _ child =>
      if has_many a then
        if is_serializer then
          match child with
          | Some c => fs ← resolve c; Ok (Some fs)
          | None => Raise (AttributeError "child")
          end
        else Ok None
      else
        if is_serializer then fs ← resolve field; Ok (Some fs)
        else Ok None
  end.

(** [hasattr(serializer.Meta.model, key)] and
    [getattr(serializer.Meta.model, key).field.related_model.__name__]:
    [Ok None] when the model has no such attribute. *)
Definition related_model_of (meta_model : option (list (string * option string)))
    (key : string) : result (option string) :=
  match meta_model with
  | None => Raise (AttributeError "Meta")
  | Some model_attrs =>
      match List.find (fun kv => String.eqb (fst kv) key) model_attrs with
      | None => Ok None
      | Some (_, Some related) => Ok (Some related)
      | Some (_, None) => Raise (AttributeError "related_model")
      end
  end.

(** The [help_text] entry after lines 199-220. *)
Definition help_text_of (meta_model : option (list (string * option string)))
    (key : string) (a : field_attrs) : result (option string) :=
  if is_RelatedField a then
    match queryset_model a with
    | Some model => Ok (Some (pk_help (help_text a) model))
    | None =>
        related ← related_model_of meta_model key;
        match related with
        | Some model => Ok (Some (pk_help (help_text a) model))
        | None => Ok (help_text a)
        end
    end
  else if is_ManyRelatedField a then
    match queryset_model a with
    | Some _ =>
        match child_relation_model a with
        | Some model => Ok (Some (pk_list_help (help_text a) model))
        | None => Raise (AttributeError "child_relation")
        end
    | None =>
        related ← related_model_of meta_model key;
        match related with
        | Some model => Ok (Some (pk_help (help_text a) model))
        | None => Ok (help_text a)
        end
    end
  else Ok (help_text a).

(** The [choices] entry: present for a [ChoiceField] that is neither a
    [RelatedField] nor a [ManyRelatedField]. *)
Definition choices_of (a : field_attrs) : option (list (string * string)) :=
  if is_RelatedField a || is_ManyRelatedField a then None else choices a.

(** One pass of the loop body of [_get_serializer_fields]. *)
Definition field_entry (resolve : obj -> result (list field_data))
    (meta_model : option (list (string * option string)))
    (key : string) (field : obj) : result field_data :=
  sub_fields ← sub_fields_of resolve field;
  help ← help_text_of meta_model key (attrs_of field);
  Ok {| fd_name := key;
        fd_read_only := read_only (attrs_of field);
        fd_type := class_name (attrs_of field);
        fd_sub_fields := sub_fields;
        fd_required := required (attrs_of field);
        fd_to_many_relation := has_many (attrs_of field);
        fd_help_text := help;
        fd_write_only := write_only (attrs_of field);
        fd_choices := choices_of (attrs_of field) |}.

Fixpoint _get_serializer_fields (serializer : obj) : result (list field_data) :=
  match serializer with
  | Obj _ _ None _ _ => Ok []
  | Obj _ _ (Some items) meta_model _ =>
      (fix loop (items : list (string * obj)) : result (list field_data) :=
         match items with
         | [] => Ok []
         | (key, field) :: rest =>
             field_data ← field_entry _get_serializer_fields meta_model key field;
             fields ← loop rest;
             Ok (field_data :: fields)
         end) items
  end.

(** ** The methods of [Endpoint] *)

Section EndpointMethods.

(** What the module imports from its environment:
    [rest_framework.utils.formatting.dedent],
    [django.contrib.admindocs.views.simplify_regex],
    the registry [builtin_docs.filter_backends] and [django.conf.settings]. *)
Variable dedent : string -> string.
Variable simplify_regex : string -> string.
Variable builtin_filter_backends : filter_backend -> option builtin_doc.
Variable conf : settings.

(** [get_view_description(obj)]: the [attr] argument is not used, the
    docstring is always read from [__doc__]. *)
Definition get_view_description (o : pyobject) : string :=
  dedent (smart_text (__doc__ o)).

(** [_get_allowed_methods] *)
Definition _get_allowed_methods (v : view) : list string :=
  match actions v with
  | Some items => List.map (fun kv => Str.upper (fst kv)) items
  | None =>
      if has_allowed_methods (cls v)
      then List.map Str.upper
             (List.filter (cls_hasattr (cls v)) (http_method_names (cls v)))
      else []
  end.

(** The [try] block of [_get_complete_path] (lines 160-168): the regex
    is read from the first place that has it; a failing attribute lookup
    gives the empty regex. *)
Definition pattern_regex (p : url_pattern) : pyvalue :=
  match _regex p with
  | Some r => r
  | None =>
      match pattern p with
      | Some inner =>
          match route_regex inner with
          | Some r => r
          | None => PyStr (route_str inner)
          end
      | None => PyStr ""
      end
  end.

(** [_get_complete_path]: [prefix.rstrip] on a missing prefix and
    [simplify_regex] are outside the [try]; [simplify_regex] matches
    regular expressions against its argument, which raises [TypeError]
    when that is not a [str]. *)
Definition _get_complete_path (p : url_pattern) (prefix : option string)
    : result string :=
  let regex := pattern_regex p in
  match prefix with
  | None => Raise (AttributeError "rstrip")
  | Some prefix =>
      let prefix := Str.rstrip_slash prefix in
      match regex with
      | PyStr regex =>
          let regex := Str.lstrip_slash (simplify_regex regex) in
          Ok (prefix +:+ "/" +:+ regex)
      | PyOther => Raise (TypeError "expected string or bytes-like object")
      end
  end.

(** The characters of the view name, a space put before each upper-case
    letter that the name does not start with ([c.isupper()] is the test
    for [A-Z] on the ASCII characters that view names are modelled
    with). *)
Fixpoint space_capitals (whole s : string) : string :=
  match s with
  | EmptyString => EmptyString
  | String c s' =>
      (if Chr.is_upper c && negb (Str.startswith (String c EmptyString) whole)
       then String Chr.SP (String c EmptyString)
       else String c EmptyString) +:+ space_capitals whole s'
  end.

Definition humanize (s : string) : string :=
  Str.title (Str.replace "_" " " (Str.replace "-" " " s)).

(** [_get_endpoint_name] *)
Definition _get_endpoint_name (p : url_pattern) : result string :=
  if bool_decide (AUTODOCS_ENDPOINT_NAMES conf = Some "view") then
    Ok (humanize (space_capitals (view_name (callback p))
                                 (view_name (callback p))))
  else
    match pattern_name p with
    | Some n => Ok (humanize n)
    | None => Raise (AttributeError "replace")
    end.

(** [_collect_filter_backends] *)
Definition filter_backend_doc (c : view_class) (f : filter_backend)
    : result (string * filter_doc) :=
  match builtin_filter_backends f with
  | Some entry =>
      if fb_is_SearchFilter f then
        match search_filters c, entry with
        | Some fields, DocRender render =>
            Ok (__name__ (fb_class f), Rendered (render fields))
        | Some _, DocText _ => Raise (TypeError "not callable")
        | None, _ =>
            Ok (__name__ (fb_class f),
                Rendered "Developer didn't specify any fields for search")
        end
      else Ok (__name__ (fb_class f), RegistryEntry entry)
  | None => Ok (__name__ (fb_class f), FromGetdoc (getdoc (fb_class f)))
  end.

Fixpoint _collect_filter_backends (c : view_class) (fs : list filter_backend)
    : result (list (string * filter_doc)) :=
  match fs with
  | [] => Ok []
  | f :: rest =>
      d ← filter_backend_doc c f;
      ds ← _collect_filter_backends c rest;
      Ok (d :: ds)
  end.

(** Lines 30-31: the backends are collected when the view class has a
    non-empty [filter_backends]. *)
Definition declared_filter_backends (c : view_class)
    : result (option (list (string * filter_doc))) :=
  match cls_filter_backends c with
  | Some (f :: fs) => ds ← _collect_filter_backends c (f :: fs); Ok (Some ds)
  | _ => Ok None
  end.

Definition name_and_doc (c : pyobject) : string * option string :=
  (__name__ c, getdoc c).

(** *** The docstring assembler *)

(** Lines 97-103: the extra action a single-action route refers to. *)
Definition find_extra_method (v : view) : option pyobject :=
  match actions v with
  | Some [(_, dynamic_method)] =>
      List.find (fun m => String.eqb (__name__ m) dynamic_method)
                (get_extra_actions (cls v))
  | _ => None
  end.

(** Line 105 *)
Definition description_of (extra : option pyobject) (c : view_class) : string :=
  match extra with
  | Some m => get_view_description m
  | None => get_view_description (cls_object c)
  end.

(** The map [_get_doc] iterates: the view's action map when it is not
    empty, else the HTTP methods the view class implements. *)
Definition actions_map (v : view) : list (string * action_target) :=
  match actions v with
  | Some (item :: items) =>
      List.map (fun kv => (fst kv, ActionName (snd kv))) (item :: items)
  | _ =>
      dict_of Str.upper HandlerFunction
        (List.filter (cls_hasattr (cls v)) (http_method_names (cls v)))
  end.

(** The section a declared method is looked up under: the action name
    when the value is a [str], else the key itself. *)
Definition section_key (method_name : string) (method : action_target) : string :=
  match method with
  | ActionName action => action
  | HandlerFunction _ => method_name
  end.

(** The loop of lines 113-117. *)
Fixpoint doc_loop (sections : gmap string string)
    (items : list (string * action_target)) (doc : string) : string :=
  match items with
  | [] => doc
  | (method_name, method) :: rest =>
      match sections !! section_key method_name method with
      | Some body =>
          doc_loop sections rest
            (doc +:+ Str.upper method_name +:+ nl +:+ Str.strip body
                 +:+ nl +:+ nl)
      | None => doc_loop sections rest doc
      end
  end.

(** [_get_doc]: the docstring, with the [extra_method] it sets. *)
Definition _get_doc (v : view) : result (option pyobject * string) :=
  let extra := find_extra_method v in
  let description := description_of extra (cls v) in
  sections ← _parse_docs_to_map description;
  let doc := doc_loop sections (actions_map v) "" in
  Ok (extra, if String.eqb doc "" then description else doc).

(** *** The explicit request/response mode *)

(** The loops of lines 62-63 and 66-67: [sections[...]] raises
    [KeyError] on a missing section. *)
Fixpoint req_res_loop (sections : gmap string string) (ms : list string)
    (text : string) : result string :=
  match ms with
  | [] => Ok text
  | method :: rest =>
      match sections !! (Str.lower method +:+ "_req") with
      | Some body =>
          req_res_loop sections rest (text +:+ Str.upper method +:+ nl +:+ body)
      | None => Raise (KeyError (Str.lower method +:+ "_req"))
      end
  end.

(** [_parse_req_res_doc]: [input_fields_text] and [output_fields_text]. *)
Definition _parse_req_res_doc (extra : option pyobject) (c : view_class)
    (ms : list string) : result (option string * option string) :=
  let description := description_of extra c in
  sections ← _parse_docs_to_map description;
  if negb (is_get_options ms) then
    input_fields_text ← req_res_loop sections ms "";
    Ok (Some input_fields_text, None)
  else
    output_fields_text ← req_res_loop sections ms "";
    Ok (None, Some output_fields_text).

(** *** The constructor *)

(** Lines 41-51: the four schema attributes [input_fields],
    [output_fields], [input_fields_text], [output_fields_text]. *)
Definition declared_fields (c : view_class) (ms : list string)
    : result (option (list field_data) * option (list field_data)) :=
  first ←
    match serializer_class c with
    | Some (Some serializer) =>
        fields ← _get_serializer_fields serializer;
        if negb (is_get_options ms) then Ok (Some fields, None)
        else Ok (None, Some fields)
    | _ => Ok (None, None)
    end;
  match response_serializer_class c with
  | Some (Some serializer) =>
      fields ← _get_serializer_fields serializer;
      Ok (fst first, Some fields)
  | Some None => Raise (TypeError "not callable")
  | None => Ok first
  end.

(** [Endpoint(pattern, prefix)] run with the class attribute
    [Endpoint.counter] at [counter]: the constructed object, or the
    exception raised, and the counter afterwards. *)
Definition __init__ (p : url_pattern) (prefix : option string)
    (counter : nat) : result Endpoint * nat :=
  let self_id := counter in
  let counter := counter + 1 in
  let v := callback p in
  let c := cls v in
  let ms := _get_allowed_methods v in
  (path ← _get_complete_path p prefix;
   endpoint_name ← _get_endpoint_name p;
   backends ← declared_filter_backends c;
   got ← _get_doc v;
   schema ←
     (if req_res_autodocs c then
        texts ← _parse_req_res_doc (fst got) c ms;
        Ok (None, None, fst texts, snd texts)
      else
        fields ← declared_fields c ms;
        Ok (fst fields, snd fields, None, None));
   Ok {| id := self_id;
         extra_method := fst got;
         methods := ms;
         complete_path := path;
         name := endpoint_name;
         extra_url_params := cls_extra_url_params c;
         filter_backends := backends;
         authentication_classes :=
           List.map name_and_doc <$> mjoin (cls_authentication_classes c);
         permission_classes :=
           List.map name_and_doc <$> mjoin (cls_permission_classes c);
         docstring := snd got;
         input_fields := fst (fst (fst schema));
         output_fields := snd (fst (fst schema));
         input_fields_text := snd (fst schema);
         output_fields_text := snd schema |},
   counter).

(** Endpoints constructed one after the other, as the documentation
    generator does for the routes of the application. *)
Fixpoint construct_all (routes : list (url_pattern * option string))
    (counter : nat) : list (result Endpoint) * nat :=
  match routes with
  | [] => ([], counter)
  | (p, prefix) :: rest =>
      let '(e, counter) := __init__ p prefix counter in
      let '(es, counter) := construct_all rest counter in
      (e :: es, counter)
  end.

End EndpointMethods.

(** ** Example objects *)

(** Django's [simplify_regex] on a route pattern without capture groups:
    the characters [^], [$] and [?] are removed and a leading slash is
    added when there is none.  (The replacement of capture groups, which
    comes first in Django, leaves such a pattern unchanged.) *)
Definition simplify_regex_plain (regex : string) : string :=
  let bare := Str.replace "?" "" (Str.replace "$" "" (Str.replace "^" "" regex)) in
  if Str.startswith "/" bare then bare else "/" +:+ bare.

Definition no_builtin_docs (f : filter_backend) : option builtin_doc := None.

Definition default_settings : settings := {| AUTODOCS_ENDPOINT_NAMES := None |}.

(** The docstring of the section parser example. *)
Definition users_doc : string :=
  "GET:" +:+ nl +:+ "  Lists users" +:+ nl +:+ "POST:" +:+ nl
  +:+ "  Creates a user".

(** *** Reading the parser's input

    A header line [name:lead] opens the section [name]; the lines after
    it, up to the next header line, continue it. *)

Definition section_name (line : string) : string :=
  fst (fst (Str.partition ":" line)).

Definition section_lead (line : string) : string :=
  snd (Str.partition ":" line).

(** A line with every tab character turned into two spaces. *)
Fixpoint tabs_to_spaces (s : string) : string :=
  match s with
  | EmptyString => EmptyString
  | String c s' =>
      if Ascii.eqb c Chr.TAB
      then String Chr.SP (String Chr.SP (tabs_to_spaces s'))
      else String c (tabs_to_spaces s')
  end.

(** The text that a run of continuation lines adds to a section body. *)
Definition continuation (lines : list string) : string :=
  Str.concat (List.map (fun l => nl +:+ tabs_to_spaces l) lines).

(** What may follow a section: nothing, or a header line. *)
Definition section_ends (post : list string) : Prop :=
  match post with
  | [] => True
  | l :: _ => header_match l = true
  end.

(** *** Reading the assembled docstring

    The entries [_get_doc] writes, one for each declared method that has
    a section: the label and the body. *)

Definition doc_entry (sections : gmap string string)
    (item : string * action_target) : option (string * string) :=
  body ← sections !! section_key (fst item) (snd item);
  Some (Str.upper (fst item), Str.strip body).

Definition doc_entries (sections : gmap string string)
    (items : list (string * action_target)) : list (string * string) :=
  omap (doc_entry sections) items.

Definition render_entry (entry : string * string) : string :=
  fst entry +:+ nl +:+ snd entry +:+ nl +:+ nl.

Definition render_entries (entries : list (string * string)) : string :=
  Str.concat (List.map render_entry entries).

(** A docstring whose section is opened by a header line with a tab in
    its continuation line. *)
Definition tabbed_doc : string :=
  "intro" +:+ nl +:+ "GET: lists" +:+ nl +:+ tab +:+ "a" +:+ tab +:+ "b"
  +:+ nl +:+ "POST:" +:+ nl +:+ "  x".

(** *** A route of a user list *)

Definition described (name : string) (doc : option string) : pyobject :=
  {| __name__ := name; __doc__ := doc; getdoc := doc |}.

Definition plain_field (type : string) : field_attrs :=
  {| class_name := type; read_only := false; required := true;
     write_only := false; help_text := None; has_many := false;
     choices := None; is_RelatedField := false;
     is_ManyRelatedField := false; queryset_model := None;
     child_relation_model := None |}.

Definition user_serializer : obj :=
  Obj (plain_field "UserSerializer") true
      (Some [("name", Obj (plain_field "CharField") false None None None)])
      (Some []) None.

(** A view class with handlers [get] and [post]. *)
Definition user_list_class (doc : option string) (explicit : bool) : view_class :=
  {| cls_object := described "UserList" doc;
     http_method_names :=
       ["get"; "post"; "put"; "patch"; "delete"; "head"; "options"; "trace"];
     cls_hasattr := fun m => String.eqb m "get" || String.eqb m "post";
     has_allowed_methods := true;
     get_extra_actions := [];
     cls_extra_url_params := None;
     cls_filter_backends := None;
     search_filters := None;
     cls_authentication_classes := None;
     cls_permission_classes := None;
     req_res_autodocs := explicit;
     serializer_class := Some (Some user_serializer);
     response_serializer_class := None |}.

Definition user_list_pattern (doc : option string) (explicit : bool)
    : url_pattern :=
  {| callback := {| view_name := "UserList"; actions := None;
                    cls := user_list_class doc explicit |};
     pattern_name := Some "user-list";
     _regex := None;
     pattern := Some {| route_regex := Some (PyStr "^users/$");
                        route_str := "^users/$" |} |}.

(** The route of the example: named [user-list], methods GET and POST,
    pattern [^users/$]. *)
Definition user_list : url_pattern := user_list_pattern (Some users_doc) false.

(** [Endpoint(pattern, prefix)] in the example environment. *)
Definition construct (p : url_pattern) (prefix : option string) (counter : nat)
    : result Endpoint * nat :=
  __init__ (fun doc => doc) simplify_regex_plain no_builtin_docs
           default_settings p prefix counter.

(** The same route in the explicit request/response mode; the docstring
    has no [get_req] section. *)
Definition explicit_user_list : url_pattern :=
  user_list_pattern (Some users_doc) true.

(** *** Reading the resolver's input *)

Definition get_fields_of (o : obj) : option (list (string * obj)) :=
  match o with Obj _ _ fields _ _ => fields end.
Definition meta_model_of (o : obj) : option (list (string * option string)) :=
  match o with Obj _ _ _ meta _ => meta end.
Definition child_of (o : obj) : option obj :=
  match o with Obj _ _ _ _ child => child end.

(** The loop of [_get_serializer_fields] over the items of
    [get_fields()]. *)
Definition resolve_items (meta_model : option (list (string * option string)))
    : list (string * obj) -> result (list field_data) :=
  fix loop (items : list (string * obj)) : result (list field_data) :=
    match items with
    | [] => Ok []
    | (key, field) :: rest =>
        field_data ← field_entry _get_serializer_fields meta_model key field;
        fields ← loop rest;
        Ok (field_data :: fields)
    end.

(** *** Serializers *)

Definition char_field : obj := Obj (plain_field "CharField") false None None None.

(** A serializer nested as a single (not to-many) field. *)
Definition profile_serializer : obj :=
  Obj (plain_field "ProfileSerializer") true (Some [("bio", char_field)])
      (Some []) None.

Definition account_serializer : obj :=
  Obj (plain_field "AccountSerializer") true
      (Some [("profile", profile_serializer)]) (Some []) None.

(** A to-many relation declared on a model serializer: the field is a
    [ManyRelatedField], which has a [child_relation] but no [queryset] of
    its own; the model attribute [groups] refers to the model [Group]. *)
Definition groups_field : obj :=
  Obj {| class_name := "ManyRelatedField"; read_only := false;
         required := true; write_only := false;
         help_text := Some "Groups of the member"; has_many := false;
         choices := None; is_RelatedField := false;
         is_ManyRelatedField := true; queryset_model := None;
         child_relation_model := Some "Group" |}
      false None None None.

Definition member_serializer : obj :=
  Obj (plain_field "MemberSerializer") true (Some [("groups", groups_field)])
      (Some [("groups", Some "Group")]) None.

(** *** Reading strings and results *)

(** A string of ASCII characters (code points below 128): the strings on
    which the case mapping of this model is Python's. *)
Definition is_ascii (s : string) : bool :=
  Str.all (fun c => Nat.ltb (Chr.code c) 128) s.

(** The last character of a string. *)
Fixpoint last_char (s : string) : option ascii :=
  match s with
  | EmptyString => None
  | String c EmptyString => Some c
  | String _ s' => last_char s'
  end.

(** The key [_parse_req_res_doc] reads for a method. *)
Definition req_key (method : string) : string := Str.lower method +:+ "_req".

(** The text [_parse_req_res_doc] assembles over sections that are all
    there. *)
Definition req_res_text (sections : gmap string string) (ms : list string)
    : string :=
  Str.concat
    (List.map (fun m => Str.upper m +:+ nl +:+ default "" (sections !! req_key m))
              ms).

(** A field that is neither a serializer nor a relation. *)
Definition is_plain_field (field : obj) : bool :=
  negb (is_BaseSerializer field)
  && negb (is_RelatedField (attrs_of field))
  && negb (is_ManyRelatedField (attrs_of field)).

(** A serializer without [Meta] that declares a relation whose queryset
    is not set, as a read-only relation is. *)
Definition owner_field : obj :=
  Obj {| class_name := "PrimaryKeyRelatedField"; read_only := true;
         required := false; write_only := false; help_text := None;
         has_many := false; choices := None; is_RelatedField := true;
         is_ManyRelatedField := false; queryset_model := None;
         child_relation_model := None |}
      false None None None.

Definition ticket_serializer : obj :=
  Obj (plain_field "TicketSerializer") true
      (Some [("title", char_field); ("owner", owner_field)]) None None.

(** *** Further routes *)

(** The user list in the explicit mode, with a section for the request
    of each method. *)
Definition req_doc : string :=
  "get_req: page" +:+ nl +:+ "post_req:" +:+ nl +:+ tab +:+ "name".

Definition documented_explicit : url_pattern :=
  user_list_pattern (Some req_doc) true.

Definition req_sections : gmap string string :=
  <["post_req" := nl +:+ "  name"]> (<["get_req" := "page"]> {[ "" := "" ]}).

(** The user list with a docstring without sections. *)
Definition undivided : url_pattern :=
  user_list_pattern (Some "Users of the site.") false.

(** A route of a view set to its extra action [set_password]. *)
Definition set_password : pyobject :=
  described "set_password" (Some ("post: Sets the password.")).

Definition set_password_view : view :=
  {| view_name := "UserViewSet";
     actions := Some [("post", "set_password")];
     cls := {| cls_object := described "UserViewSet" (Some "Users.");
               http_method_names := ["get"; "post"];
               cls_hasattr := fun m => String.eqb m "set_password";
               has_allowed_methods := true;
               get_extra_actions := [described "recent" None; set_password];
               cls_extra_url_params := None;
               cls_filter_backends :=
                 Some [ {| fb_class := described "SearchFilter" None;
                           fb_is_SearchFilter := true |};
                        {| fb_class := described "OwnFilter" (Some "Own.");
                           fb_is_SearchFilter := false |} ];
               search_filters := None;
               cls_authentication_classes := Some None;
               cls_permission_classes := None;
               req_res_autodocs := false;
               serializer_class := Some None;
               response_serializer_class := None |} |}.

(** A registry that knows the search filter only. *)
Definition search_docs (f : filter_backend) : option builtin_doc :=
  if fb_is_SearchFilter f
  then Some (DocRender (fun fields => "Search in: " +:+ Str.concat fields))
  else None.

(** The descriptor of a field that is neither a serializer nor a
    relation. *)
Definition plain_descriptor (item : string * obj) : field_data :=
  {| fd_name := fst item;
     fd_read_only := read_only (attrs_of (snd item));
     fd_type := class_name (attrs_of (snd item));
     fd_sub_fields := None;
     fd_required := required (attrs_of (snd item));
     fd_to_many_relation := has_many (attrs_of (snd item));
     fd_help_text := help_text (attrs_of (snd item));
     fd_write_only := write_only (attrs_of (snd item));
     fd_choices := choices (attrs_of (snd item)) |}.

Definition backend_name (f : filter_backend) : string := __name__ (fb_class f).

(** The user list with [serializer_class = None] declared, and the same
    with [response_serializer_class = None] declared as well. *)
Definition unserialized (response : option (option obj)) : url_pattern :=
  {| callback :=
       {| view_name := "UserUpdate"; actions := None;
          cls := {| cls_object := described "UserUpdate" None;
                    http_method_names := ["get"; "put"];
                    cls_hasattr := fun m => String.eqb m "put";
                    has_allowed_methods := true;
                    get_extra_actions := [];
                    cls_extra_url_params := None;
                    cls_filter_backends := Some [];
                    search_filters := None;
                    cls_authentication_classes := None;
                    cls_permission_classes := None;
                    req_res_autodocs := false;
                    serializer_class := Some None;
                    response_serializer_class := response |} |};
     pattern_name := Some "user_update";
     _regex := Some (PyStr "users/update/$");
     pattern := None |}.

(** A pattern that has neither [_regex] nor [pattern]. *)
Definition unrouted : url_pattern :=
  {| callback := callback user_list; pattern_name := Some "users";
     _regex := None; pattern := None |}.

Definition view_names : settings := {| AUTODOCS_ENDPOINT_NAMES := Some "view" |}.

(** * Properties *)

(** ** Strings *)

Lemma app_nil_r (s : string) : s +:+ "" = s.
Proof. induction s as [|c s IH]; simpl; [reflexivity | now rewrite IH]. Qed.

Lemma app_assoc (a b c : string) : (a +:+ b) +:+ c = a +:+ (b +:+ c).
Proof. induction a as [|x a IH]; simpl; [reflexivity | now rewrite IH]. Qed.

Lemma app_empty (a b : string) : a +:+ b = "" -> a = "" /\ b = "".
Proof. destruct a; simpl; intros H; [auto | discriminate]. Qed.

(** ** Header detection *)

Lemma word_not_colon (c : ascii) : Chr.is_word c = true -> c <> ":"%char.
Proof. intros H ->. vm_compute in H. discriminate. Qed.

(** The tail of the header pattern, [[0-9A-Za-z_]*:], matches exactly the
    strings that begin with word characters followed by a colon. *)
Lemma word_star_colon (s : string) :
  Re.matches [Re.Many Chr.is_word; Re.One (Ascii.eqb ":")] s = true
  <-> exists w rest, s = w +:+ ":" +:+ rest /\ Str.all Chr.is_word w = true.
Proof.
  induction s as [|c s IH].
  - simpl. split; [discriminate |].
    intros (w & rest & H & _). destruct w; discriminate.
  - change (Re.matches [Re.Many Chr.is_word; Re.One (Ascii.eqb ":")] (String c s))
      with ((Chr.is_word c
             && Re.matches [Re.Many Chr.is_word; Re.One (Ascii.eqb ":")] s)
            || (Ascii.eqb ":" c && true)).
    rewrite orb_true_iff, !andb_true_iff, IH. split.
    + intros [[Hc (w & rest & -> & Hw)] | [Hc _]].
      * exists (String c w), rest. simpl. rewrite Hc, Hw. auto.
      * apply Ascii.eqb_eq in Hc. subst c. exists "", s. auto.
    + intros (w & rest & H & Hw). destruct w as [|x w]; simpl in H.
      * injection H as -> <-. right. auto.
      * injection H as -> ->. simpl in Hw. apply andb_true_iff in Hw as [Hx Hw].
        left. split; [assumption |]. exists w, rest. auto.
Qed.

Lemma header_match_spec (line : string) :
  header_match line = true
  <-> exists c w rest,
        line = String c (w +:+ ":" +:+ rest)
        /\ Chr.is_letter c = true /\ Str.all Chr.is_word w = true.
Proof.
  unfold header_match, header_regex. destruct line as [|c s].
  - simpl. split; [discriminate | intros (? & ? & ? & H & _); discriminate].
  - change (Re.matches (Re.One Chr.is_letter
                        :: [Re.Many Chr.is_word; Re.One (Ascii.eqb ":")])
                       (String c s))
      with (Chr.is_letter c
            && Re.matches [Re.Many Chr.is_word; Re.One (Ascii.eqb ":")] s).
    rewrite andb_true_iff, word_star_colon. split.
    + intros [Hc (w & rest & -> & Hw)]. exists c, w, rest. auto.
    + intros (c' & w & rest & H & Hc & Hw). injection H as <- ->. eauto.
Qed.

(** The name of a header line is its text before the first colon. *)
Lemma partition_word_colon (w rest : string) :
  Str.all Chr.is_word w = true ->
  Str.partition ":" (w +:+ ":" +:+ rest) = (w, ":", rest).
Proof.
  induction w as [|x w IH]; simpl; intros Hw; [reflexivity |].
  simpl in IH. apply andb_true_iff in Hw as [Hx Hw].
  destruct (Ascii.eqb_spec x ":") as [-> | _].
  - vm_compute in Hx. discriminate.
  - rewrite (IH Hw). reflexivity.
Qed.

Lemma letter_is_word (c : ascii) : Chr.is_letter c = true -> Chr.is_word c = true.
Proof.
  unfold Chr.is_letter, Chr.is_word.
  destruct (Chr.is_lower c), (Chr.is_upper c), (Chr.is_digit c); simpl;
    intros H; try discriminate; reflexivity.
Qed.

(** A header line splits at its colon into a non-empty name and a lead. *)
Lemma header_partition (line : string) :
  header_match line = true ->
  exists c w lead,
    Str.partition ":" line = (String c w, ":", lead)
    /\ line = String c w +:+ ":" +:+ lead.
Proof.
  intros (c & w & rest & -> & Hc & Hw)%header_match_spec.
  exists c, w, rest. split; [| reflexivity].
  apply (partition_word_colon (String c w) rest).
  simpl. rewrite (letter_is_word c Hc), Hw. reflexivity.
Qed.

(** C2: a line is a section header if and only if it starts with an ASCII
    letter, continues with zero or more characters of [[0-9A-Za-z_]] and
    has a colon right after them; ['Get:'] is a header, ['2xx:'] is not,
    and ['note: see below'] is a header whose section name is ['note']. *)
Theorem header_detection :
  (forall line,
      header_match line = true
      <-> exists c w rest,
            line = String c (w +:+ ":" +:+ rest)
            /\ Chr.is_letter c = true /\ Str.all Chr.is_word w = true)
  /\ header_match "Get:" = true
  /\ header_match "2xx:" = false
  /\ header_match "note: see below" = true
  /\ fst (fst (Str.partition ":" "note: see below")) = "note"
  /\ _parse_docs_to_map "note: see below"
     = Ok (<["note" := "see below"]> {[ "" := "" ]}).
Proof.
  split; [exact header_match_spec |].
  repeat split; vm_compute; reflexivity.
Qed.

(** ** The section parser on the example docstring *)

(** C3, as stated: the bodies would be stored trimmed. *)
Lemma users_doc_bodies_not_trimmed :
  _parse_docs_to_map users_doc
  <> Ok (<["POST" := "Creates a user"]>
           (<["GET" := "Lists users"]> {[ "" := "" ]})).
Proof.
  intros H.
  apply (f_equal (fun r => match r with
                           | Ok m => m !! "GET"
                           | Raise _ => None
                           end)) in H.
  vm_compute in H. discriminate.
Qed.

(** C3, amended: the parser yields the mapping with keys ['GET'] and
    ['POST'] as written and the empty key for the leading text; each body
    is the text after the header line, with its line break and its
    indentation; trimmed, the bodies are ['Lists users'] and
    ['Creates a user']. *)
Theorem users_doc_sections :
  _parse_docs_to_map users_doc
  = Ok (<["POST" := nl +:+ "  Creates a user"]>
          (<["GET" := nl +:+ "  Lists users"]> {[ "" := "" ]}))
  /\ Str.strip (nl +:+ "  Lists users") = "Lists users"
  /\ Str.strip (nl +:+ "  Creates a user") = "Creates a user".
Proof. repeat split; vm_compute; reflexivity. Qed.

(** ** The section parser in general *)

Lemma replace_tab (s : string) : Str.replace tab "  " s = tabs_to_spaces s.
Proof.
  unfold Str.replace, tab. induction s as [|c s IH]; [reflexivity |].
  cbn [Str.replace_from Str.startswith tabs_to_spaces String.length Nat.sub].
  rewrite Ascii.eqb_sym, andb_true_r, IH.
  destruct (Ascii.eqb c Chr.TAB); reflexivity.
Qed.

Lemma tabs_to_spaces_no_tab (s : string) :
  Str.mem Chr.TAB (tabs_to_spaces s) = false.
Proof.
  induction s as [|c s IH]; [reflexivity |]. cbn [tabs_to_spaces].
  destruct (Ascii.eqb_spec c Chr.TAB) as [-> | Hc]; cbn [Str.mem]; rewrite IH.
  - reflexivity.
  - rewrite orb_false_r. apply Ascii.eqb_neq. congruence.
Qed.

Lemma mem_app (a : ascii) (s t : string) :
  Str.mem a (s +:+ t) = Str.mem a s || Str.mem a t.
Proof.
  induction s as [|c s IH]; simpl; [reflexivity |].
  now rewrite IH, orb_assoc.
Qed.

Lemma continuation_no_tab (lines : list string) :
  Str.mem Chr.TAB (continuation lines) = false.
Proof.
  unfold continuation. induction lines as [|l ls IH]; [reflexivity |].
  cbn [List.map Str.concat]. rewrite !mem_app, IH, tabs_to_spaces_no_tab.
  reflexivity.
Qed.

Lemma continuation_cons (l : string) (ls : list string) :
  continuation (l :: ls) = nl +:+ tabs_to_spaces l +:+ continuation ls.
Proof. unfold continuation. cbn [List.map Str.concat]. now rewrite app_assoc. Qed.

(** A header line starts its section afresh. *)
Lemma parse_lines_header (h : string) (rest : list string) (cur : string)
    (sections : gmap string string) :
  header_match h = true ->
  parse_lines (h :: rest) cur sections
  = parse_lines rest (section_name h)
      (<[section_name h := Str.strip (section_lead h)]> sections).
Proof.
  intros Hh. cbn [parse_lines]. rewrite Hh.
  unfold section_name, section_lead.
  destruct (Str.partition ":" h) as [[name sep] lead]. reflexivity.
Qed.

(** A run of continuation lines extends the current section. *)
Lemma parse_lines_continuation (cs rest : list string) (cur body : string)
    (sections : gmap string string) :
  Forall (fun l => header_match l = false) cs ->
  sections !! cur = Some body ->
  parse_lines (cs ++ rest) cur sections
  = parse_lines rest cur (<[cur := body +:+ continuation cs]> sections).
Proof.
  intros Hcs. revert body sections.
  induction Hcs as [|l cs Hl _ IH]; intros body sections Hcur.
  - cbn [app]. unfold continuation. cbn [List.map Str.concat].
    rewrite app_nil_r, insert_id by assumption. reflexivity.
  - cbn [app parse_lines]. rewrite Hl, Hcur.
    rewrite (IH (body +:+ nl +:+ Str.replace tab "  " l))
      by apply lookup_insert_eq.
    rewrite insert_insert_eq, replace_tab, continuation_cons, !app_assoc.
    reflexivity.
Qed.

(** The parser keeps an entry for the current section, so that its
    [+=] never fails. *)
Lemma parse_lines_total (lines : list string) (cur : string)
    (sections : gmap string string) :
  is_Some (sections !! cur) ->
  exists m, parse_lines lines cur sections = Ok m.
Proof.
  revert cur sections.
  induction lines as [|l ls IH]; intros cur sections Hcur; [eauto |].
  destruct (header_match l) eqn:Hl.
  - rewrite parse_lines_header by assumption. apply IH.
    rewrite lookup_insert_eq. eauto.
  - cbn [parse_lines]. rewrite Hl. destruct Hcur as [body ->].
    apply IH. rewrite lookup_insert_eq. eauto.
Qed.

Lemma _parse_docs_to_map_total (doc : string) :
  exists m, _parse_docs_to_map doc = Ok m.
Proof.
  apply parse_lines_total. rewrite lookup_singleton_eq. eauto.
Qed.

(** Reading a prefix of the lines leaves the parser in a state that has
    an entry for its current section. *)
Lemma parse_lines_prefix (pre rest : list string) (cur : string)
    (sections : gmap string string) :
  is_Some (sections !! cur) ->
  exists cur' sections',
    is_Some (sections' !! cur')
    /\ parse_lines (pre ++ rest) cur sections = parse_lines rest cur' sections'.
Proof.
  revert cur sections.
  induction pre as [|l pre IH]; intros cur sections Hcur; [eauto |].
  cbn [app]. destruct (header_match l) eqn:Hl.
  - rewrite parse_lines_header by assumption. apply IH.
    rewrite lookup_insert_eq. eauto.
  - cbn [parse_lines]. rewrite Hl. destruct Hcur as [body ->].
    apply IH. rewrite lookup_insert_eq. eauto.
Qed.

(** A section that is neither current nor opened again keeps its body. *)
Lemma parse_lines_keeps (k : string) (lines : list string) (cur : string)
    (sections m : gmap string string) :
  k <> cur ->
  Forall (fun l => header_match l = true -> section_name l <> k) lines ->
  parse_lines lines cur sections = Ok m ->
  m !! k = sections !! k.
Proof.
  intros Hk Hlines. revert cur sections Hk.
  induction Hlines as [|l ls Hl _ IH]; intros cur sections Hk Hm.
  - cbn in Hm. congruence.
  - destruct (header_match l) eqn:Hh.
    + rewrite parse_lines_header in Hm by assumption.
      specialize (Hl eq_refl).
      rewrite (IH _ _ (not_eq_sym Hl) Hm).
      apply lookup_insert_ne. assumption.
    + cbn [parse_lines] in Hm. rewrite Hh in Hm.
      destruct (sections !! cur) as [body|] eqn:Hcur; [| discriminate].
      rewrite (IH _ _ Hk Hm). apply lookup_insert_ne. congruence.
Qed.

(** The body of a section once the lines after it are read. *)
Lemma parse_lines_section_done (post : list string) (cur body : string)
    (sections : gmap string string) :
  section_ends post ->
  Forall (fun l => header_match l = true -> section_name l <> cur) post ->
  sections !! cur = Some body ->
  exists m, parse_lines post cur sections = Ok m /\ m !! cur = Some body.
Proof.
  intros Hends Hpost Hcur. destruct post as [|h post].
  - exists sections. auto.
  - cbn in Hends. inversion Hpost as [|? ? Hh Hrest]; subst.
    specialize (Hh Hends). rewrite parse_lines_header by assumption.
    destruct (parse_lines_total post (section_name h)
                (<[section_name h := Str.strip (section_lead h)]> sections))
      as [m Hm]; [rewrite lookup_insert_eq; eauto |].
    exists m. split; [assumption |].
    rewrite (parse_lines_keeps cur _ _ _ _ (not_eq_sym Hh) Hrest Hm).
    rewrite lookup_insert_ne by assumption. assumption.
Qed.

(** C6, as stated: a tab in the text after the colon on a header line
    would be replaced; the parser keeps it. *)
Lemma header_line_tab_kept :
  _parse_docs_to_map ("GET:a" +:+ tab +:+ "b")
  = Ok (<["GET" := "a" +:+ tab +:+ "b"]> {[ "" := "" ]})
  /\ Str.mem Chr.TAB ("a" +:+ tab +:+ "b") = true
  /\ "a" +:+ tab +:+ "b" <> "a  b".
Proof.
  split; [vm_compute; reflexivity | split; [reflexivity | discriminate]].
Qed.

(** The body stored for a header line that no later header line of the
    same name follows: the trimmed text after its colon and its
    continuation lines, each after a line break and with its tabs
    expanded. *)
Lemma section_body_after_last_header (doc : string) (pre : list string)
    (h : string) (cs post : list string) :
  Str.splitlines doc = pre ++ h :: cs ++ post ->
  header_match h = true ->
  Forall (fun l => header_match l = false) cs ->
  section_ends post ->
  Forall (fun l => header_match l = true -> section_name l <> section_name h)
         post ->
  exists m,
    _parse_docs_to_map doc = Ok m
    /\ m !! section_name h
       = Some (Str.strip (section_lead h) +:+ continuation cs)
    /\ Str.mem Chr.TAB (continuation cs) = false.
Proof.
  intros Hdoc Hh Hcs Hends Hpost. unfold _parse_docs_to_map. rewrite Hdoc.
  destruct (parse_lines_prefix pre (h :: cs ++ post) "" {[ "" := "" ]})
    as (cur & sections & _ & ->); [rewrite lookup_singleton_eq; eauto |].
  rewrite parse_lines_header by assumption.
  rewrite (parse_lines_continuation cs post _ (Str.strip (section_lead h)))
    by (assumption || apply lookup_insert_eq).
  destruct (parse_lines_section_done post (section_name h)
              (Str.strip (section_lead h) +:+ continuation cs)
              (<[section_name h
                 := Str.strip (section_lead h) +:+ continuation cs]>
                 (<[section_name h := Str.strip (section_lead h)]> sections)))
    as (m & Hm & Hbody); [assumption | assumption | apply lookup_insert_eq |].
  exists m. auto using continuation_no_tab.
Qed.

(** ** The docstring assembler *)

Lemma doc_loop_entries (sections : gmap string string)
    (items : list (string * action_target)) (doc : string) :
  doc_loop sections items doc
  = doc +:+ render_entries (doc_entries sections items).
Proof.
  revert doc. induction items as [|[method_name method] items IH]; intros doc.
  - cbn. now rewrite app_nil_r.
  - cbn [doc_loop doc_entries omap list_omap]. unfold doc_entry at 1.
    cbn [fst snd].
    destruct (sections !! section_key method_name method) as [body|]; cbn.
    + fold (doc_entries sections items). rewrite IH.
      unfold render_entries. cbn [List.map Str.concat]. unfold render_entry at 2.
      cbn [fst snd]. now rewrite !app_assoc.
    + fold (doc_entries sections items). apply IH.
Qed.

Lemma doc_entries_app (sections : gmap string string)
    (xs ys : list (string * action_target)) :
  doc_entries sections (xs ++ ys)
  = doc_entries sections xs ++ doc_entries sections ys.
Proof. apply omap_app. Qed.

Lemma doc_entries_length (sections : gmap string string)
    (items : list (string * action_target)) :
  length (doc_entries sections items) <= length items.
Proof.
  induction items as [|item items IH]; [reflexivity |].
  cbn [doc_entries omap list_omap length].
  destruct (doc_entry sections item); cbn [length];
    fold (doc_entries sections items); lia.
Qed.

Lemma doc_entries_spec (sections : gmap string string)
    (items : list (string * action_target)) :
  Forall (fun entry =>
            exists method_name method raw,
              In (method_name, method) items
              /\ sections !! section_key method_name method = Some raw
              /\ entry = (Str.upper method_name, Str.strip raw))
         (doc_entries sections items).
Proof.
  induction items as [|[method_name method] items IH]; [constructor |].
  cbn [doc_entries omap list_omap]. fold (doc_entries sections items).
  assert (Htail : Forall (fun entry =>
            exists method_name0 method0 raw,
              In (method_name0, method0) ((method_name, method) :: items)
              /\ sections !! section_key method_name0 method0 = Some raw
              /\ entry = (Str.upper method_name0, Str.strip raw))
         (doc_entries sections items)).
  { eapply Forall_impl; [exact IH |].
    intros entry (a & b & raw & Hin & Hraw & ->).
    exists a, b, raw. split; [now right | auto]. }
  unfold doc_entry at 1. cbn [fst snd].
  destruct (sections !! section_key method_name method) as [raw|] eqn:Hraw;
    cbn; [| exact Htail].
  constructor; [| exact Htail].
  exists method_name, method, raw. split; [now left | auto].
Qed.

Lemma render_entries_empty (entries : list (string * string)) :
  render_entries entries = "" -> entries = [].
Proof.
  destruct entries as [|[label body] entries]; [reflexivity |].
  unfold render_entries, render_entry. cbn [List.map Str.concat fst snd].
  intros H. rewrite !app_assoc in H.
  apply app_empty in H as [_ H]. discriminate.
Qed.

Lemma dict_set_length {V} (k : string) (v : V) (d : list (string * V)) :
  length (dict_set k v d) <= S (length d).
Proof.
  induction d as [|[k' v'] d IH]; cbn; [lia |].
  destruct (String.eqb k' k); cbn; lia.
Qed.

Lemma dict_of_length {A V} (key : A -> string) (val : A -> V) (xs : list A) :
  length (dict_of key val xs) <= length xs.
Proof.
  unfold dict_of.
  enough (H : forall d, length (fold_left
                (fun d x => dict_set (key x) (val x) d) xs d)
              <= length xs + length d)
    by (specialize (H []); cbn in H; lia).
  induction xs as [|x xs IH]; intros d; cbn [fold_left length]; [lia |].
  specialize (IH (dict_set (key x) (val x) d)).
  pose proof (dict_set_length (key x) (val x) d). lia.
Qed.

Section DocstringProperties.

Variable dedent : string -> string.
Variable simplify_regex : string -> string.
Variable builtin_filter_backends : filter_backend -> option builtin_doc.
Variable conf : settings.

(** When the view has allowed methods, the map [_get_doc] iterates has
    at most as many entries. *)
Lemma actions_map_length (v : view) :
  _get_allowed_methods v <> [] ->
  length (actions_map v) <= length (_get_allowed_methods v).
Proof.
  unfold _get_allowed_methods, actions_map.
  destruct (actions v) as [[|item items]|].
  - intros H. now contradiction H.
  - intros _. now rewrite !length_map.
  - destruct (has_allowed_methods (cls v)); [| intros H; now contradiction H].
    intros _. rewrite length_map. apply dict_of_length.
Qed.

Lemma _get_doc_value (v : view) (sections : gmap string string) :
  _parse_docs_to_map (description_of dedent (find_extra_method v) (cls v))
  = Ok sections ->
  _get_doc dedent v
  = Ok (find_extra_method v,
        match doc_entries sections (actions_map v) with
        | [] => description_of dedent (find_extra_method v) (cls v)
        | entries => render_entries entries
        end).
Proof.
  intros Hparse. unfold _get_doc. rewrite Hparse. cbn.
  rewrite doc_loop_entries. cbn [String.append].
  destruct (doc_entries sections (actions_map v)) as [|e es] eqn:He;
    [reflexivity |].
  destruct (String.eqb_spec (render_entries (e :: es)) "") as [H | _];
    [| reflexivity].
  apply render_entries_empty in H. discriminate.
Qed.

Lemma _get_doc_total (v : view) :
  exists doc, _get_doc dedent v = Ok (find_extra_method v, doc).
Proof.
  destruct (_parse_docs_to_map_total
              (description_of dedent (find_extra_method v) (cls v)))
    as [sections Hparse].
  rewrite (_get_doc_value v sections Hparse). eauto.
Qed.

(** C4: the view declares the methods (or actions) of the map [_get_doc]
    iterates, as many as its allowed methods or fewer; the assembled
    docstring is the concatenation of at most that many method-labelled
    sections (the plain description when there is none), and the body of
    each is the trimmed body of the parsed section it was looked up
    under. *)
Theorem assembled_docstring_sections (v : view) :
  (_get_allowed_methods v <> [] ->
   length (actions_map v) <= length (_get_allowed_methods v))
  /\ exists sections entries,
       _parse_docs_to_map
         (description_of dedent (find_extra_method v) (cls v)) = Ok sections
       /\ _get_doc dedent v
          = Ok (find_extra_method v,
                match entries with
                | [] => description_of dedent (find_extra_method v) (cls v)
                | _ => render_entries entries
                end)
       /\ length entries <= length (actions_map v)
       /\ Forall (fun entry =>
                    exists method_name method raw,
                      In (method_name, method) (actions_map v)
                      /\ sections !! section_key method_name method = Some raw
                      /\ entry = (Str.upper method_name, Str.strip raw))
                 entries.
Proof.
  split; [apply actions_map_length |].
  destruct (_parse_docs_to_map_total
              (description_of dedent (find_extra_method v) (cls v)))
    as [sections Hparse].
  exists sections, (doc_entries sections (actions_map v)).
  split; [assumption |]. split.
  { rewrite (_get_doc_value v sections Hparse).
    now destruct (doc_entries sections (actions_map v)). }
  split; [apply doc_entries_length | apply doc_entries_spec].
Qed.

End DocstringProperties.

Lemma assembled_docstring_sections_witness :
  length (actions_map (callback user_list))
  <= length (_get_allowed_methods (callback user_list)).
Proof.
  apply (proj1 (assembled_docstring_sections (fun doc => doc)
                  (callback user_list))).
  vm_compute. discriminate.
Defined.

(** ** The two documentation modes and the constructor *)

Lemma doc_loop_skips (sections : gmap string string)
    (xs ys : list (string * action_target)) (method_name : string)
    (method : action_target) (doc : string) :
  sections !! section_key method_name method = None ->
  doc_loop sections (xs ++ (method_name, method) :: ys) doc
  = doc_loop sections (xs ++ ys) doc.
Proof.
  intros Hnone. rewrite !doc_loop_entries, !doc_entries_app.
  do 3 f_equal. cbn [doc_entries omap list_omap]. unfold doc_entry at 1.
  cbn [fst snd]. now rewrite Hnone.
Qed.

(** [sections[...]] in the request/response loop raises at the first
    method whose section is missing. *)
Lemma req_res_loop_missing (sections : gmap string string) (ms : list string)
    (m : string) (text : string) :
  In m ms ->
  sections !! (Str.lower m +:+ "_req") = None ->
  exists k,
    sections !! k = None /\ req_res_loop sections ms text = Raise (KeyError k).
Proof.
  revert text. induction ms as [|m' ms IH]; intros text Hin Hnone;
    [destruct Hin |].
  cbn [req_res_loop].
  destruct (sections !! (Str.lower m' +:+ "_req")) as [body|] eqn:Hm'.
  - destruct Hin as [-> | Hin]; [congruence |]. now apply IH.
  - eauto.
Qed.

Section ConstructorProperties.

Variable dedent : string -> string.
Variable simplify_regex : string -> string.
Variable builtin_filter_backends : filter_backend -> option builtin_doc.
Variable conf : settings.

Local Abbreviation init :=
  (__init__ dedent simplify_regex builtin_filter_backends conf).

Lemma _parse_req_res_doc_missing (extra : option pyobject) (c : view_class)
    (ms : list string) (sections : gmap string string) (m : string) :
  _parse_docs_to_map (description_of dedent extra c) = Ok sections ->
  In m ms ->
  sections !! (Str.lower m +:+ "_req") = None ->
  exists k,
    sections !! k = None
    /\ _parse_req_res_doc dedent extra c ms = Raise (KeyError k).
Proof.
  intros Hparse Hin Hnone. unfold _parse_req_res_doc. rewrite Hparse.
  destruct (req_res_loop_missing sections ms m "" Hin Hnone) as (k & Hk & Hloop).
  exists k. split; [assumption |]. cbn.
  destruct (is_get_options ms); cbn; now rewrite Hloop.
Qed.

(** The constructor after its first three fallible steps. *)
Lemma init_after_preamble (p : url_pattern) (prefix : option string)
    (counter : nat) (path nm : string)
    (bs : option (list (string * filter_doc))) :
  _get_complete_path simplify_regex p prefix = Ok path ->
  _get_endpoint_name conf p = Ok nm ->
  declared_filter_backends builtin_filter_backends (cls (callback p)) = Ok bs ->
  fst (init p prefix counter)
  = (got ← _get_doc dedent (callback p);
     schema ←
       (if req_res_autodocs (cls (callback p)) then
          texts ← _parse_req_res_doc dedent (fst got) (cls (callback p))
                    (_get_allowed_methods (callback p));
          Ok (None, None, fst texts, snd texts)
        else
          fields ← declared_fields (cls (callback p))
                     (_get_allowed_methods (callback p));
          Ok (fst fields, snd fields, None, None));
     Ok {| id := counter;
           extra_method := fst got;
           methods := _get_allowed_methods (callback p);
           complete_path := path;
           name := nm;
           extra_url_params := cls_extra_url_params (cls (callback p));
           filter_backends := bs;
           authentication_classes :=
             List.map name_and_doc
               <$> mjoin (cls_authentication_classes (cls (callback p)));
           permission_classes :=
             List.map name_and_doc
               <$> mjoin (cls_permission_classes (cls (callback p)));
           docstring := snd got;
           input_fields := fst (fst (fst schema));
           output_fields := snd (fst (fst schema));
           input_fields_text := snd (fst schema);
           output_fields_text := snd schema |}).
Proof.
  intros Hpath Hname Hbs. unfold __init__. cbn [fst].
  rewrite Hpath, Hname, Hbs. reflexivity.
Qed.

Lemma init_explicit_mode_raises (p : url_pattern) (prefix : option string)
    (counter : nat) (k : string) :
  req_res_autodocs (cls (callback p)) = true ->
  _parse_req_res_doc dedent (find_extra_method (callback p)) (cls (callback p))
    (_get_allowed_methods (callback p)) = Raise (KeyError k) ->
  (exists e, fst (init p prefix counter) = Raise e)
  /\ (is_ok (_get_complete_path simplify_regex p prefix) = true ->
      is_ok (_get_endpoint_name conf p) = true ->
      is_ok (declared_filter_backends builtin_filter_backends
               (cls (callback p))) = true ->
      fst (init p prefix counter) = Raise (KeyError k)).
Proof.
  intros Hmode Hraise.
  destruct (_get_doc_total dedent (callback p)) as [doc Hdoc].
  assert (Hmain : forall path nm bs,
             _get_complete_path simplify_regex p prefix = Ok path ->
             _get_endpoint_name conf p = Ok nm ->
             declared_filter_backends builtin_filter_backends
               (cls (callback p)) = Ok bs ->
             fst (init p prefix counter) = Raise (KeyError k)).
  { intros path nm bs Hpath Hname Hbs.
    rewrite (init_after_preamble p prefix counter path nm bs) by assumption.
    rewrite Hdoc, Hmode. cbn. now rewrite Hraise. }
  split.
  - destruct (_get_complete_path simplify_regex p prefix) as [path|e] eqn:Hpath;
      [| exists e; unfold __init__; cbn [fst]; now rewrite Hpath].
    destruct (_get_endpoint_name conf p) as [nm|e] eqn:Hname;
      [| exists e; unfold __init__; cbn [fst]; now rewrite Hpath, Hname].
    destruct (declared_filter_backends builtin_filter_backends
                (cls (callback p))) as [bs|e] eqn:Hbs;
      [| exists e; unfold __init__; cbn [fst]; now rewrite Hpath, Hname, Hbs].
    exists (KeyError k). now apply (Hmain path nm bs).
  - destruct (_get_complete_path simplify_regex p prefix) as [path|] eqn:Hpath;
      [| discriminate].
    destruct (_get_endpoint_name conf p) as [nm|] eqn:Hname; [| discriminate].
    destruct (declared_filter_backends builtin_filter_backends
                (cls (callback p))) as [bs|] eqn:Hbs; [| discriminate].
    intros _ _ _. now apply (Hmain path nm bs).
Qed.

(** C1: in the default mode a declared method or action without a
    matching section is skipped: [_get_doc] does not raise, and the
    assembled docstring is the one assembled without that method.  In the
    explicit request/response mode a declared method whose [<method>_req]
    section is missing makes [_parse_req_res_doc] raise [KeyError]; the
    constructor does not catch it. *)
Theorem missing_section_policy :
  (forall v, exists doc, _get_doc dedent v = Ok (find_extra_method v, doc))
  /\ (forall (sections : gmap string string) xs ys method_name method doc,
         sections !! section_key method_name method = None ->
         doc_loop sections (xs ++ (method_name, method) :: ys) doc
         = doc_loop sections (xs ++ ys) doc)
  /\ (forall p prefix counter (sections : gmap string string) m,
         req_res_autodocs (cls (callback p)) = true ->
         _parse_docs_to_map
           (description_of dedent (find_extra_method (callback p))
              (cls (callback p))) = Ok sections ->
         In m (_get_allowed_methods (callback p)) ->
         sections !! (Str.lower m +:+ "_req") = None ->
         exists k,
           sections !! k = None
           /\ _parse_req_res_doc dedent (find_extra_method (callback p))
                (cls (callback p)) (_get_allowed_methods (callback p))
              = Raise (KeyError k)
           /\ (exists e, fst (init p prefix counter) = Raise e)
           /\ (is_ok (_get_complete_path simplify_regex p prefix) = true ->
               is_ok (_get_endpoint_name conf p) = true ->
               is_ok (declared_filter_backends builtin_filter_backends
                        (cls (callback p))) = true ->
               fst (init p prefix counter) = Raise (KeyError k))).
Proof.
  split; [apply _get_doc_total |]. split; [apply doc_loop_skips |].
  intros p prefix counter sections m Hmode Hparse Hin Hnone.
  destruct (_parse_req_res_doc_missing _ _ _ sections m Hparse Hin Hnone)
    as (k & Hk & Hraise).
  exists k. split; [assumption |]. split; [assumption |].
  now apply init_explicit_mode_raises.
Qed.

(** The schema attributes of a successfully constructed Endpoint in the
    default mode are those of lines 44-51. *)
Lemma init_default_mode (p : url_pattern) (prefix : option string)
    (counter : nat) (path nm : string)
    (bs : option (list (string * filter_doc)))
    (fields : option (list field_data) * option (list field_data)) :
  _get_complete_path simplify_regex p prefix = Ok path ->
  _get_endpoint_name conf p = Ok nm ->
  declared_filter_backends builtin_filter_backends (cls (callback p)) = Ok bs ->
  req_res_autodocs (cls (callback p)) = false ->
  declared_fields (cls (callback p)) (_get_allowed_methods (callback p))
  = Ok fields ->
  exists e,
    fst (init p prefix counter) = Ok e
    /\ methods e = _get_allowed_methods (callback p)
    /\ input_fields e = fst fields
    /\ output_fields e = snd fields.
Proof.
  intros Hpath Hname Hbs Hmode Hfields.
  rewrite (init_after_preamble p prefix counter path nm bs) by assumption.
  destruct (_get_doc_total dedent (callback p)) as [doc ->].
  rewrite Hmode, Hfields. cbn. eauto.
Qed.

(** C5: outside the explicit request/response mode, the constructor
    records the resolved fields of the declared serializer class as
    [input_fields], unless the set of allowed methods is exactly
    GET and OPTIONS, where it records them as [output_fields]; the
    resolved fields of a declared response serializer class are recorded
    as [output_fields] whatever the methods are. *)
Theorem serializer_fields_recorded (p : url_pattern) (prefix : option string)
    (counter : nat) (path nm : string)
    (bs : option (list (string * filter_doc)))
    (serializer : obj) (fields : list field_data) :
  _get_complete_path simplify_regex p prefix = Ok path ->
  _get_endpoint_name conf p = Ok nm ->
  declared_filter_backends builtin_filter_backends (cls (callback p)) = Ok bs ->
  req_res_autodocs (cls (callback p)) = false ->
  serializer_class (cls (callback p)) = Some (Some serializer) ->
  _get_serializer_fields serializer = Ok fields ->
  (response_serializer_class (cls (callback p)) = None ->
   exists e,
     fst (init p prefix counter) = Ok e
     /\ if is_get_options (methods e)
        then input_fields e = None /\ output_fields e = Some fields
        else input_fields e = Some fields /\ output_fields e = None)
  /\ (forall response response_fields,
         response_serializer_class (cls (callback p)) = Some (Some response) ->
         _get_serializer_fields response = Ok response_fields ->
         exists e,
           fst (init p prefix counter) = Ok e
           /\ output_fields e = Some response_fields
           /\ input_fields e
              = if is_get_options (methods e) then None else Some fields).
Proof.
  intros Hpath Hname Hbs Hmode Hser Hfields. split.
  - intros Hresponse.
    destruct (init_default_mode p prefix counter path nm bs
                (if is_get_options (_get_allowed_methods (callback p))
                 then (None, Some fields) else (Some fields, None)))
      as (e & He & Hms & Hin & Hout); try assumption.
    { unfold declared_fields. rewrite Hser, Hfields, Hresponse. cbn.
      now destruct (is_get_options _). }
    exists e. split; [assumption |]. rewrite Hms, Hin, Hout.
    now destruct (is_get_options _).
  - intros response response_fields Hresponse Hrfields.
    destruct (init_default_mode p prefix counter path nm bs
                (if is_get_options (_get_allowed_methods (callback p))
                 then None else Some fields, Some response_fields))
      as (e & He & Hms & Hin & Hout); try assumption.
    { unfold declared_fields. rewrite Hser, Hfields, Hresponse. cbn.
      destruct (is_get_options _); cbn; now rewrite Hrfields. }
    exists e. rewrite Hms, Hin, Hout. auto.
Qed.

(** *** Identifiers *)

Lemma init_id (p : url_pattern) (prefix : option string) (counter : nat)
    (e : Endpoint) :
  fst (init p prefix counter) = Ok e -> id e = counter.
Proof.
  unfold __init__. cbn [fst].
  destruct (_get_complete_path simplify_regex p prefix); [| discriminate].
  destruct (_get_endpoint_name conf p); [| discriminate].
  destruct (declared_filter_backends _ _); [| discriminate].
  destruct (_get_doc dedent (callback p)); [| discriminate].
  cbn. destruct (req_res_autodocs _).
  - destruct (_parse_req_res_doc _ _ _ _); [| discriminate].
    cbn. now intros [= <-].
  - destruct (declared_fields _ _); [| discriminate].
    cbn. now intros [= <-].
Qed.

Lemma init_counter (p : url_pattern) (prefix : option string) (counter : nat) :
  snd (init p prefix counter) = counter + 1.
Proof. reflexivity. Qed.

Lemma construct_all_counter (routes : list (url_pattern * option string))
    (counter : nat) :
  snd (construct_all dedent simplify_regex builtin_filter_backends conf
         routes counter)
  = counter + length routes.
Proof.
  revert counter. induction routes as [|[p prefix] routes IH]; intros counter.
  - cbn. lia.
  - cbn [construct_all].
    destruct (init p prefix counter) as [e c] eqn:He.
    pose proof (init_counter p prefix counter) as Hc. rewrite He in Hc.
    cbn [snd] in Hc. subst c. specialize (IH (counter + 1)).
    destruct (construct_all _ _ _ _ routes (counter + 1)) as [es c'].
    cbn [snd length] in *. lia.
Qed.

(** The Endpoint constructed at position [i] of a run carries the
    counter's start value plus [i]. *)
Lemma construct_all_id (routes : list (url_pattern * option string))
    (counter i : nat) (e : Endpoint) :
  fst (construct_all dedent simplify_regex builtin_filter_backends conf
         routes counter) !! i = Some (Ok e) ->
  id e = counter + i.
Proof.
  revert counter i. induction routes as [|[p prefix] routes IH];
    intros counter i; [discriminate |].
  cbn [construct_all].
  destruct (init p prefix counter) as [r c] eqn:He.
  pose proof (init_counter p prefix counter) as Hc. rewrite He in Hc.
  cbn [snd] in Hc. subst c. specialize (IH (counter + 1)).
  destruct (construct_all _ _ _ _ routes (counter + 1)) as [es c'].
  cbn [fst] in *. destruct i as [|i]; cbn.
  - intros [= ->]. rewrite (init_id p prefix counter e); [lia |].
    now rewrite He.
  - intros H. rewrite (IH i H). lia.
Qed.

(** C10: of two Endpoints constructed in a run, the one constructed
    first has the smaller [id]; the counter grows by one with every
    construction and is never set back. *)
Theorem endpoint_ids_increasing (routes : list (url_pattern * option string))
    (counter i j : nat) (e1 e2 : Endpoint) :
  i < j ->
  fst (construct_all dedent simplify_regex builtin_filter_backends conf
         routes counter) !! i = Some (Ok e1) ->
  fst (construct_all dedent simplify_regex builtin_filter_backends conf
         routes counter) !! j = Some (Ok e2) ->
  id e1 < id e2
  /\ counter <= id e1
  /\ id e2 < snd (construct_all dedent simplify_regex builtin_filter_backends
                    conf routes counter).
Proof.
  intros Hij H1 H2.
  rewrite (construct_all_id routes counter i e1 H1).
  rewrite (construct_all_id routes counter j e2 H2).
  rewrite construct_all_counter.
  apply lookup_lt_Some in H2.
  assert (Hlen : length (fst (construct_all dedent simplify_regex
                                builtin_filter_backends conf routes counter))
                 = length routes).
  { clear. revert counter.
    induction routes as [|[p prefix] routes IH]; intros counter; [reflexivity |].
    cbn [construct_all]. destruct (init p prefix counter) as [r c].
    specialize (IH c). destruct (construct_all _ _ _ _ routes c) as [es c'].
    cbn [fst length] in *. now rewrite IH. }
  lia.
Qed.
End ConstructorProperties.

Lemma missing_section_policy_witness :
  exists k, fst (construct explicit_user_list (Some "/api") 0) = Raise (KeyError k).
Proof.
  destruct (proj2 (proj2 (missing_section_policy (fun doc => doc)
                            simplify_regex_plain no_builtin_docs
                            default_settings))
              explicit_user_list (Some "/api") 0
              (<["POST" := nl +:+ "  Creates a user"]>
                 (<["GET" := nl +:+ "  Lists users"]> {[ "" := "" ]}))
              "GET")
    as (k & _ & _ & _ & H).
  - reflexivity.
  - vm_compute. reflexivity.
  - vm_compute. auto.
  - vm_compute. reflexivity.
  - exists k. apply H; vm_compute; reflexivity.
Defined.

Lemma serializer_fields_recorded_witness :
  exists e,
    fst (construct user_list (Some "/api") 0) = Ok e
    /\ if is_get_options (methods e)
       then input_fields e = None
            /\ output_fields e
               = Some [FieldData "name" false "CharField" None true false None
                         false None]
       else input_fields e
            = Some [FieldData "name" false "CharField" None true false None
                      false None]
            /\ output_fields e = None.
Proof.
  apply (proj1 (serializer_fields_recorded (fun doc => doc)
                  simplify_regex_plain no_builtin_docs default_settings
                  user_list (Some "/api") 0 "/api/users/" "User List" None
                  user_serializer
                  [FieldData "name" false "CharField" None true false None
                     false None]
                  eq_refl eq_refl eq_refl eq_refl eq_refl eq_refl)).
  reflexivity.
Defined.

Lemma endpoint_ids_increasing_witness :
  exists e1 e2,
    fst (construct_all (fun doc => doc) simplify_regex_plain no_builtin_docs
           default_settings
           [(user_list, Some "/api"); (explicit_user_list, Some "/api");
            (user_list, Some "/v2/")] 7) !! 0 = Some (Ok e1)
    /\ fst (construct_all (fun doc => doc) simplify_regex_plain no_builtin_docs
              default_settings
              [(user_list, Some "/api"); (explicit_user_list, Some "/api");
               (user_list, Some "/v2/")] 7) !! 2 = Some (Ok e2)
    /\ id e1 < id e2.
Proof.
  eexists. eexists. split; [vm_compute; reflexivity |].
  split; [vm_compute; reflexivity |].
  refine (proj1 (endpoint_ids_increasing (fun doc => doc) simplify_regex_plain
                   no_builtin_docs default_settings
                   [(user_list, Some "/api"); (explicit_user_list, Some "/api");
                    (user_list, Some "/v2/")] 7 0 2 _ _ _ _ _)).
  - lia.
  - vm_compute. reflexivity.
  - vm_compute. reflexivity.
Defined.

(** ** The example route *)

(** Whatever [simplify_regex] returns for the regex of the pattern, the
    complete path is the prefix without its trailing slashes, a slash, and
    the simplified pattern without its leading slashes: a leading slash of
    the prefix stays. *)
Lemma complete_path_shape (simplify_regex : string -> string)
    (p : url_pattern) (prefix regex : string) :
  pattern_regex p = PyStr regex ->
  _get_complete_path simplify_regex p (Some prefix)
  = Ok (Str.rstrip_slash prefix +:+ "/"
        +:+ Str.lstrip_slash (simplify_regex regex)).
Proof. intros Hregex. unfold _get_complete_path. now rewrite Hregex. Qed.

(** C7, as stated: the complete path would be ['api/users/']. *)
Lemma user_list_path_keeps_leading_slash :
  exists e,
    fst (construct user_list (Some "/api") 0) = Ok e
    /\ complete_path e = "/api/users/"
    /\ complete_path e <> "api/users/".
Proof.
  eexists. split; [vm_compute; reflexivity |].
  split; [reflexivity | discriminate].
Qed.

(** C7, amended: for the route named ['user-list'] with allowed methods
    GET and POST, prefix ['/api'] and pattern ['^users/$'], with the
    view-name-based naming switch off, the constructed Endpoint has
    complete path ['/api/users/'] (the prefix keeps its leading slash) and
    display name ['User List']. *)
Theorem user_list_endpoint :
  exists e,
    fst (construct user_list (Some "/api") 0) = Ok e
    /\ methods e = ["GET"; "POST"]
    /\ complete_path e = "/api/users/"
    /\ name e = "User List".
Proof. eexists. split; [vm_compute; reflexivity |]. repeat split. Qed.

(** ** The field schema resolver *)

Lemma _get_serializer_fields_items (serializer : obj)
    (items : list (string * obj)) :
  get_fields_of serializer = Some items ->
  _get_serializer_fields serializer
  = resolve_items (meta_model_of serializer) items.
Proof. destruct serializer; cbn. now intros ->. Qed.

Lemma resolve_items_spec (meta_model : option (list (string * option string)))
    (items : list (string * obj)) (fds : list field_data) :
  resolve_items meta_model items = Ok fds ->
  Forall2 (fun item fd =>
             field_entry _get_serializer_fields meta_model (fst item) (snd item)
             = Ok fd)
          items fds.
Proof.
  revert fds. induction items as [|[key field] items IH]; intros fds.
  - cbn. intros [= <-]. constructor.
  - cbn [resolve_items].
    destruct (field_entry _get_serializer_fields meta_model key field)
      as [fd|] eqn:Hfd; [| discriminate].
    cbn. fold (resolve_items meta_model).
    destruct (resolve_items meta_model items) as [rest|]; [| discriminate].
    cbn. intros [= <-]. constructor; [assumption | now apply IH].
Qed.

Lemma field_entry_sub_fields (resolve : obj -> result (list field_data))
    (meta_model : option (list (string * option string)))
    (key : string) (field : obj) (fd : field_data) :
  field_entry resolve meta_model key field = Ok fd ->
  fd_name fd = key
  /\ fd_to_many_relation fd = has_many (attrs_of field)
  /\ sub_fields_of resolve field = Ok (fd_sub_fields fd).
Proof.
  unfold field_entry.
  destruct (sub_fields_of resolve field) as [sub|]; [| discriminate].
  cbn. destruct (help_text_of meta_model key (attrs_of field));
    [| discriminate].
  cbn. intros [= <-]. auto.
Qed.

(** C9, as stated: [sub_fields] would be absent for a field without the
    [many] marker; a serializer nested as a single field has them. *)
Lemma nested_single_serializer_has_sub_fields :
  exists fd,
    _get_serializer_fields account_serializer = Ok [fd]
    /\ fd_to_many_relation fd = false
    /\ fd_sub_fields fd
       = Some [FieldData "bio" false "CharField" None true false None false
                 None].
Proof. eexists. split; [vm_compute; reflexivity |]. split; reflexivity. Qed.

(** C9, amended: in the resolver's output the [sub_fields] of a field
    that is a serializer are the recursively resolved fields of its
    element ([field.child]) when the field has the [many] marker and of the
    field itself when it has not; [sub_fields] is absent exactly for the
    fields that are not serializers. *)
Theorem sub_fields_resolution (serializer : obj)
    (items : list (string * obj)) (fds : list field_data) :
  get_fields_of serializer = Some items ->
  _get_serializer_fields serializer = Ok fds ->
  Forall2 (fun item fd =>
             fd_name fd = fst item
             /\ fd_to_many_relation fd = has_many (attrs_of (snd item))
             /\ if is_BaseSerializer (snd item) then
                  exists element fs,
                    (if has_many (attrs_of (snd item))
                     then child_of (snd item) = Some element
                     else element = snd item)
                    /\ _get_serializer_fields element = Ok fs
                    /\ fd_sub_fields fd = Some fs
                else fd_sub_fields fd = None)
          items fds.
Proof.
  intros Hitems Hfds.
  rewrite (_get_serializer_fields_items serializer items Hitems) in Hfds.
  apply resolve_items_spec in Hfds.
  eapply Forall2_impl; [exact Hfds |].
  intros [key field] fd (Hname & Hmany & Hsub)%field_entry_sub_fields.
  cbn [fst snd] in *. split; [assumption |]. split; [assumption |].
  destruct field as [a is_serializer fields meta child].
  cbn [is_BaseSerializer attrs_of child_of sub_fields_of] in *.
  destruct is_serializer.
  - destruct (has_many a).
    + destruct child as [element|]; [| discriminate].
      destruct (_get_serializer_fields element) as [fs|] eqn:Hfs;
        [| discriminate].
      cbn in Hsub. injection Hsub as Hsub. exists element, fs. auto.
    + destruct (_get_serializer_fields (Obj a true fields meta child))
        as [fs|] eqn:Hfs; [| discriminate].
      cbn in Hsub. injection Hsub as Hsub.
      exists (Obj a true fields meta child), fs. auto.
  - destruct (has_many a); now injection Hsub as <-.
Qed.

Lemma sub_fields_resolution_witness :
  Forall2 (fun item fd =>
             fd_name fd = fst item
             /\ fd_to_many_relation fd = has_many (attrs_of (snd item))
             /\ if is_BaseSerializer (snd item) then
                  exists element fs,
                    (if has_many (attrs_of (snd item))
                     then child_of (snd item) = Some element
                     else element = snd item)
                    /\ _get_serializer_fields element = Ok fs
                    /\ fd_sub_fields fd = Some fs
                else fd_sub_fields fd = None)
          [("profile", profile_serializer)]
          [FieldData "profile" false "ProfileSerializer"
             (Some [FieldData "bio" false "CharField" None true false None
                      false None])
             true false None false None].
Proof.
  apply (sub_fields_resolution account_serializer).
  - reflexivity.
  - vm_compute. reflexivity.
Defined.

(** C8, on the code: a to-many relation whose target is found through
    the serializer's model gets the wording of a single relation,
    ['Requires/renders pk(id) of Group as integer'], not the wording with
    the list of pk's. *)
Theorem to_many_fallback_uses_single_wording :
  _get_serializer_fields member_serializer
  = Ok [FieldData "groups" false "ManyRelatedField" None true false
          (Some ("Groups of the member" +:+ nl
                 +:+ "Requires/renders pk(id) of Group as integer"))
          false None]
  /\ pk_help (Some "Groups of the member") "Group"
     <> pk_list_help (Some "Groups of the member") "Group".
Proof.
  split; [vm_compute; reflexivity |].
  intros H. vm_compute in H. discriminate.
Qed.

(** ** Further properties of the section parser *)

Lemma header_name_nonempty (line : string) :
  header_match line = true -> section_name line <> "".
Proof.
  intros (c & w & lead & Hp & _)%header_partition.
  unfold section_name. rewrite Hp. discriminate.
Qed.

Lemma header_name_identifier (line : string) :
  header_match line = true ->
  exists c w,
    section_name line = String c w
    /\ Chr.is_letter c = true /\ Str.all Chr.is_word w = true.
Proof.
  intros (c & w & rest & -> & Hc & Hw)%header_match_spec.
  exists c, w. split; [| auto].
  unfold section_name.
  change (String c (w +:+ ":" +:+ rest)) with (String c w +:+ ":" +:+ rest).
  rewrite (partition_word_colon (String c w) rest); [reflexivity |].
  cbn [Str.all]. now rewrite (letter_is_word c Hc), Hw.
Qed.

(** The keys after reading some lines: those there before, and the names
    of the header lines read. *)
Lemma parse_lines_keys (lines : list string) (cur : string)
    (sections m : gmap string string) (k : string) :
  parse_lines lines cur sections = Ok m ->
  is_Some (m !! k)
  <-> is_Some (sections !! k)
      \/ exists l, In l lines /\ header_match l = true /\ section_name l = k.
Proof.
  revert cur sections. induction lines as [|l ls IH]; intros cur sections Hm.
  - cbn in Hm. injection Hm as <-. split; [auto |].
    intros [H | (l & [] & _)]. exact H.
  - destruct (header_match l) eqn:Hl.
    + rewrite parse_lines_header in Hm by assumption.
      rewrite (IH _ _ Hm). rewrite lookup_insert.
      destruct (decide (section_name l = k)) as [Hk | Hk].
      * split; [| intros _; left; eauto].
        intros _. right. exists l. split; [now left | auto].
      * split.
        -- intros [H | (l' & Hin & Hh & Hn)]; [now left |].
           right. exists l'. split; [now right | auto].
        -- intros [H | (l' & [-> | Hin] & Hh & Hn)]; [now left | congruence |].
           right. exists l'. auto.
    + cbn [parse_lines] in Hm. rewrite Hl in Hm.
      destruct (sections !! cur) as [body|] eqn:Hcur; [| discriminate].
      rewrite (IH _ _ Hm). rewrite lookup_insert.
      destruct (decide (cur = k)) as [<- | Hk].
      * rewrite Hcur. split; [intros _; left; eauto |]. intros _. left. eauto.
      * split.
        -- intros [H | (l' & Hin & Hh & Hn)]; [now left |].
           right. exists l'. split; [now right | auto].
        -- intros [H | (l' & [-> | Hin] & Hh & Hn)]; [now left | congruence |].
           right. exists l'. auto.
Qed.

(** X1: the parser never raises, and the text before the first header
    line is collected under the empty key, each of its lines after a line
    break and with its tabs expanded. *)
Theorem leading_text_section (doc : string) (cs post : list string) :
  Str.splitlines doc = cs ++ post ->
  Forall (fun l => header_match l = false) cs ->
  section_ends post ->
  exists m,
    _parse_docs_to_map doc = Ok m /\ m !! "" = Some (continuation cs).
Proof.
  intros Hdoc Hcs Hends. unfold _parse_docs_to_map. rewrite Hdoc.
  rewrite (parse_lines_continuation cs post "" "")
    by (assumption || apply lookup_singleton_eq).
  apply parse_lines_section_done; [assumption | | apply lookup_insert_eq].
  apply Forall_forall. intros l _. apply header_name_nonempty.
Qed.

Lemma leading_text_section_witness :
  exists m,
    _parse_docs_to_map tabbed_doc = Ok m
    /\ m !! "" = Some (continuation ["intro"]).
Proof.
  apply (leading_text_section tabbed_doc ["intro"]
           ["GET: lists"; tab +:+ "a" +:+ tab +:+ "b"; "POST:"; "  x"]).
  - vm_compute. reflexivity.
  - repeat constructor.
  - vm_compute. reflexivity.
Defined.

(** X2: for every docstring the parser returns a mapping whose keys are
    the empty key and the names of the header lines, nothing else; a key
    other than the empty one is an identifier: a letter followed by
    characters of [[0-9A-Za-z_]]. *)
Theorem parsed_section_names (doc : string) :
  exists m,
    _parse_docs_to_map doc = Ok m
    /\ (forall k,
          is_Some (m !! k)
          <-> k = ""
              \/ exists l, In l (Str.splitlines doc)
                           /\ header_match l = true /\ section_name l = k)
    /\ (forall k,
          is_Some (m !! k) ->
          k = ""
          \/ exists c w, k = String c w /\ Chr.is_letter c = true
                         /\ Str.all Chr.is_word w = true).
Proof.
  destruct (_parse_docs_to_map_total doc) as [m Hm]. exists m.
  split; [assumption |].
  assert (Hkeys : forall k,
             is_Some (m !! k)
             <-> k = ""
                 \/ exists l, In l (Str.splitlines doc)
                              /\ header_match l = true /\ section_name l = k).
  { intros k. rewrite (parse_lines_keys _ _ _ m k Hm).
    rewrite lookup_singleton. destruct (decide ("" = k)) as [<- | Hk].
    - split; intros _; left; [reflexivity | eauto].
    - split; (intros [H | H]; [| now right]).
      + destruct H as [? H]. discriminate.
      + congruence. }
  split; [exact Hkeys |].
  intros k [-> | (l & _ & Hl & <-)]%Hkeys; [now left |].
  right. now apply header_name_identifier.
Qed.

(** ** Paths and names *)

Lemma rstrip_by_last (p : ascii -> bool) (s : string) (c : ascii) :
  last_char (Str.rstrip_by p s) = Some c -> p c = false.
Proof.
  induction s as [|a s IH]; [discriminate |].
  cbn [Str.rstrip_by]. destruct (Str.rstrip_by p s) as [|x r] eqn:Hr.
  - destruct (p a) eqn:Ha; [discriminate |]. cbn. now intros [= <-].
  - intros H. apply IH. exact H.
Qed.

Lemma rstrip_by_removed (p : ascii -> bool) (s : string) :
  exists t, s = Str.rstrip_by p s +:+ t /\ Str.all p t = true.
Proof.
  induction s as [|a s (t & Hs & Ht)]; [now exists "" |].
  cbn [Str.rstrip_by]. destruct (Str.rstrip_by p s) as [|x r] eqn:Hr.
  - cbn [String.append] in Hs. subst t. destruct (p a) eqn:Ha.
    + exists (String a s). cbn [String.append Str.all]. now rewrite Ha, Ht.
    + exists s. split; [reflexivity | assumption].
  - exists t. split; [| assumption].
    change (String a (String x r) +:+ t) with (String a (String x r +:+ t)).
    now rewrite <- Hs.
Qed.

Lemma lstrip_by_head (p : ascii -> bool) (s : string) (c : ascii) (r : string) :
  Str.lstrip_by p s = String c r -> p c = false.
Proof.
  induction s as [|a s IH]; [discriminate |].
  cbn [Str.lstrip_by]. destruct (p a) eqn:Ha; [exact IH |].
  now intros [= <- _].
Qed.

(** X3: [_get_complete_path] without a prefix (the default argument)
    raises [AttributeError].  With a prefix it raises [TypeError] when the
    regex found on the pattern is not a [str], and otherwise returns the
    prefix without its trailing slashes, one slash, and the simplified
    regex without its leading slashes.  A pattern with neither [_regex]
    nor [pattern] has the empty regex: the failing lookup is not an
    error. *)
Theorem complete_path_join (simplify_regex : string -> string)
    (p : url_pattern) :
  _get_complete_path simplify_regex p None = Raise (AttributeError "rstrip")
  /\ (forall prefix,
        match pattern_regex p with
        | PyOther =>
            _get_complete_path simplify_regex p (Some prefix)
            = Raise (TypeError "expected string or bytes-like object")
        | PyStr regex =>
            exists a t,
              _get_complete_path simplify_regex p (Some prefix)
              = Ok (a +:+ "/" +:+ Str.lstrip_slash (simplify_regex regex))
              /\ prefix = a +:+ t
              /\ Str.all (Ascii.eqb "/") t = true
              /\ last_char a <> Some "/"%char
              /\ Str.startswith "/" (Str.lstrip_slash (simplify_regex regex))
                 = false
        end)
  /\ (_regex p = None -> pattern p = None -> pattern_regex p = PyStr "").
Proof.
  split; [reflexivity |]. split.
  - intros prefix. destruct (pattern_regex p) as [regex|] eqn:Hregex.
    + rewrite (complete_path_shape simplify_regex p prefix regex Hregex).
      destruct (rstrip_by_removed (Ascii.eqb "/") prefix) as (t & Ht & Hall).
      exists (Str.rstrip_slash prefix), t.
      split; [reflexivity |]. split; [exact Ht |]. split; [exact Hall |]. split.
      * intros H. apply rstrip_by_last in H. discriminate.
      * unfold Str.lstrip_slash.
        destruct (Str.lstrip_by (Ascii.eqb "/") (simplify_regex regex))
          as [|c r] eqn:Hb; [reflexivity |].
        apply lstrip_by_head in Hb. cbn [Str.startswith]. now rewrite Hb.
    + unfold _get_complete_path. now rewrite Hregex.
  - intros Hregex Hpattern. unfold pattern_regex. now rewrite Hregex, Hpattern.
Qed.

Lemma complete_path_join_witness :
  pattern_regex unrouted = PyStr "".
Proof.
  apply (proj2 (proj2 (complete_path_join simplify_regex_plain unrouted)));
    reflexivity.
Defined.

Lemma replace_char (a b : ascii) (s : string) :
  Str.replace (String a "") (String b "") s
  = Str.map (fun c => if Ascii.eqb a c then b else c) s.
Proof.
  unfold Str.replace. induction s as [|c s IH]; [reflexivity |].
  cbn [Str.replace_from Str.startswith Str.map String.length Nat.sub].
  rewrite andb_true_r, IH. now destruct (Ascii.eqb a c).
Qed.

Lemma map_length (f : ascii -> ascii) (s : string) :
  String.length (Str.map f s) = String.length s.
Proof. induction s as [|c s IH]; cbn; [reflexivity | now rewrite IH]. Qed.

Lemma title_from_length (b : bool) (s : string) :
  String.length (Str.title_from b s) = String.length s.
Proof.
  revert b. induction s as [|c s IH]; intros b; cbn; [reflexivity |].
  now rewrite IH.
Qed.

Lemma mem_map_absent (x : ascii) (f : ascii -> ascii) (s : string) :
  (forall c, f c = x -> c = x) ->
  Str.mem x s = false -> Str.mem x (Str.map f s) = false.
Proof.
  intros Hf. induction s as [|c s IH]; [reflexivity |].
  cbn [Str.mem Str.map]. intros [Hc Hs]%orb_false_iff.
  rewrite (IH Hs), orb_false_r. apply Ascii.eqb_neq.
  apply Ascii.eqb_neq in Hc. intros H. apply Hc. symmetry. now apply Hf.
Qed.

Lemma mem_replaced (a b : ascii) (s : string) :
  a <> b ->
  Str.mem a (Str.map (fun c => if Ascii.eqb a c then b else c) s) = false.
Proof.
  intros Hab. induction s as [|c s IH]; [reflexivity |].
  cbn [Str.mem Str.map]. rewrite IH, orb_false_r.
  destruct (Ascii.eqb_spec a c) as [<- | Hc]; now apply Ascii.eqb_neq.
Qed.

Lemma map_absent_id (a b : ascii) (s : string) :
  Str.mem a s = false ->
  Str.map (fun c => if Ascii.eqb a c then b else c) s = s.
Proof.
  induction s as [|c s IH]; [reflexivity |].
  cbn [Str.mem Str.map]. intros [-> Hs]%orb_false_iff. now rewrite (IH Hs).
Qed.

Lemma case_keeps_separator (x : ascii) :
  x = "-"%char \/ x = "_"%char \/ x = " "%char ->
  forall c, (Chr.to_upper c = x -> c = x) /\ (Chr.to_lower c = x -> c = x).
Proof.
  intros Hx c.
  destruct c as [[] [] [] [] [] [] [] []];
    destruct Hx as [-> | [-> | ->]];
    vm_compute; split; intros H; first [reflexivity | discriminate H].
Qed.

Lemma title_from_absent (x : ascii) (b : bool) (s : string) :
  x = "-"%char \/ x = "_"%char \/ x = " "%char ->
  Str.mem x s = false -> Str.mem x (Str.title_from b s) = false.
Proof.
  intros Hx. revert b. induction s as [|c s IH]; intros b; [reflexivity |].
  cbn [Str.mem Str.title_from]. intros [Hc Hs]%orb_false_iff.
  rewrite (IH _ Hs), orb_false_r. apply Ascii.eqb_neq.
  apply Ascii.eqb_neq in Hc. intros H. apply Hc. symmetry.
  destruct (case_keeps_separator x Hx c) as [Hup Hlow].
  destruct b; [now apply Hlow | now apply Hup].
Qed.

Lemma humanize_no_separators (s : string) :
  Str.mem "-" (humanize s) = false /\ Str.mem "_" (humanize s) = false.
Proof.
  unfold humanize, Str.title. rewrite !replace_char. split.
  - apply title_from_absent; [auto |].
    apply mem_map_absent; [| now apply mem_replaced].
    intros c. destruct (Ascii.eqb_spec "_" c) as [<- | _]; [discriminate | auto].
  - apply title_from_absent; [auto |]. now apply mem_replaced.
Qed.

Lemma humanize_length (s : string) :
  String.length (humanize s) = String.length s.
Proof.
  unfold humanize, Str.title.
  now rewrite title_from_length, !replace_char, !map_length.
Qed.

(** X4: with names taken from the view ([AUTODOCS_ENDPOINT_NAMES] is
    ['view']) [_get_endpoint_name] never raises.  Otherwise a route
    without a name makes it raise [AttributeError], and a route with a
    name of ASCII characters gets a display name that is as long as the
    name.  A display name made from ASCII characters contains neither a
    hyphen nor an underscore. *)
Theorem endpoint_name_humanized (conf : settings) (p : url_pattern) :
  (AUTODOCS_ENDPOINT_NAMES conf = Some "view" ->
   exists nm,
     _get_endpoint_name conf p = Ok nm
     /\ (is_ascii (view_name (callback p)) = true ->
         Str.mem "-" nm = false /\ Str.mem "_" nm = false))
  /\ (AUTODOCS_ENDPOINT_NAMES conf <> Some "view" ->
      match pattern_name p with
      | Some n =>
          is_ascii n = true ->
          exists nm,
            _get_endpoint_name conf p = Ok nm
            /\ String.length nm = String.length n
            /\ Str.mem "-" nm = false /\ Str.mem "_" nm = false
      | None => _get_endpoint_name conf p = Raise (AttributeError "replace")
      end).
Proof.
  unfold _get_endpoint_name. split.
  - intros Hview. rewrite bool_decide_true by assumption.
    eexists. split; [reflexivity |]. intros _. apply humanize_no_separators.
  - intros Hview. rewrite bool_decide_false by assumption.
    destruct (pattern_name p) as [n|]; [| reflexivity].
    intros _. eexists. split; [reflexivity |].
    split; [apply humanize_length | apply humanize_no_separators].
Qed.

Lemma endpoint_name_humanized_witness :
  exists nm,
    _get_endpoint_name default_settings user_list = Ok nm
    /\ String.length nm = String.length "user-list"
    /\ Str.mem "-" nm = false /\ Str.mem "_" nm = false.
Proof.
  apply (proj2 (endpoint_name_humanized default_settings user_list)).
  - discriminate.
  - reflexivity.
Defined.

Lemma case_idem (c : ascii) :
  Chr.to_upper (Chr.to_upper c) = Chr.to_upper c
  /\ Chr.to_lower (Chr.to_lower c) = Chr.to_lower c
  /\ Chr.is_letter (Chr.to_upper c) = Chr.is_letter c
  /\ Chr.is_letter (Chr.to_lower c) = Chr.is_letter c.
Proof.
  destruct c as [[] [] [] [] [] [] [] []]; vm_compute; repeat split.
Qed.

Lemma title_from_idem (b : bool) (s : string) :
  Str.title_from b (Str.title_from b s) = Str.title_from b s.
Proof.
  revert b. induction s as [|c s IH]; intros b; [reflexivity |].
  cbn [Str.title_from].
  destruct (case_idem c) as (Hup & Hlow & Hlup & Hllow).
  destruct b; [rewrite Hlow, Hllow | rewrite Hup, Hlup]; now rewrite IH.
Qed.

(** X5: on a name of ASCII characters, making a display name is
    idempotent: the display name of a display name is that display
    name. *)
Theorem humanize_idempotent (s : string) :
  is_ascii s = true -> humanize (humanize s) = humanize s.
Proof.
  intros _. destruct (humanize_no_separators s) as [Hhyphen Hunder].
  unfold humanize at 1. rewrite !replace_char.
  rewrite (map_absent_id "-" " " _ Hhyphen), (map_absent_id "_" " " _ Hunder).
  unfold humanize, Str.title. apply title_from_idem.
Qed.

Lemma humanize_idempotent_witness :
  humanize (humanize "user-list") = humanize "user-list".
Proof. apply (humanize_idempotent "user-list"). reflexivity. Defined.

(** ** Methods *)

Lemma upper_idem (s : string) : Str.upper (Str.upper s) = Str.upper s.
Proof.
  unfold Str.upper. induction s as [|c s IH]; [reflexivity |].
  cbn [Str.map]. rewrite IH. now destruct (case_idem c) as [-> _].
Qed.

Lemma dict_set_in {V} (k k' : string) (v v' : V) (d : list (string * V)) :
  In (k', v') (dict_set k v d) -> (k', v') = (k, v) \/ In (k', v') d.
Proof.
  induction d as [|[k0 v0] d IH]; cbn.
  - intros [H | []]. now left.
  - destruct (String.eqb k0 k); cbn.
    + intros [H | H]; auto.
    + intros [H | H]; [auto |]. destruct (IH H); auto.
Qed.

Lemma dict_of_in {A V} (key : A -> string) (val : A -> V) (xs : list A)
    (k : string) (v : V) :
  In (k, v) (dict_of key val xs) ->
  exists x, In x xs /\ k = key x /\ v = val x.
Proof.
  unfold dict_of.
  enough (H : forall d,
             In (k, v) (fold_left (fun d x => dict_set (key x) (val x) d) xs d) ->
             In (k, v) d \/ exists x, In x xs /\ k = key x /\ v = val x).
  { intros Hin. destruct (H [] Hin) as [[] | Hx]. exact Hx. }
  induction xs as [|x xs IH]; intros d; cbn [fold_left]; [auto |].
  intros Hin. destruct (IH _ Hin) as [Hd | (y & Hy & Hk & Hv)].
  - destruct (dict_set_in _ _ _ _ _ Hd) as [[= -> ->] | Hd']; [| auto].
    right. exists x. split; [now left | auto].
  - right. exists y. split; [now right | auto].
Qed.




(** X6: every allowed method of an Endpoint is in upper case, and when
    the Endpoint has allowed methods, every label that [_get_doc] can
    write into the docstring is one of them. *)
Theorem allowed_methods_upper_case (v : view) :
  (forall m, In m (_get_allowed_methods v) -> Str.upper m = m)
  /\ (_get_allowed_methods v <> [] ->
      forall method_name method,
        In (method_name, method) (actions_map v) ->
        In (Str.upper method_name) (_get_allowed_methods v)).
Proof.
  unfold _get_allowed_methods, actions_map. split.
  - intros m. destruct (actions v) as [items|].
    + intros (kv & <- & _)%in_map_iff. apply upper_idem.
    + destruct (has_allowed_methods (cls v)); [| intros []].
      intros (h & <- & _)%in_map_iff. apply upper_idem.
  - destruct (actions v) as [[|item items]|].
    + intros H. now contradiction H.
    + intros _ method_name method (kv & [= <- <-] & Hin)%in_map_iff.
      apply in_map_iff. exists kv. auto.
    + destruct (has_allowed_methods (cls v)); [| intros H; now contradiction H].
      intros _ method_name method (h & Hh & -> & _)%dict_of_in.
      rewrite upper_idem. now apply in_map.
Qed.

Lemma allowed_methods_upper_case_witness :
  In (Str.upper "GET") (_get_allowed_methods (callback user_list)).
Proof.
  apply (proj2 (allowed_methods_upper_case (callback user_list))
           ltac:(vm_compute; discriminate) "GET" (HandlerFunction "get")).
  vm_compute. auto.
Defined.



(** X8: the test [set(methods) == {'GET', 'OPTIONS'}] holds exactly for
    the method lists that contain both GET and OPTIONS and nothing else,
    in any order and with any repetition; a route that allows GET alone
    does not pass it. *)
Theorem get_options_test (ms : list string) :
  is_get_options ms = true
  <-> In "GET" ms /\ In "OPTIONS" ms
      /\ forall m, In m ms -> m = "GET" \/ m = "OPTIONS".
Proof.
  unfold is_get_options. rewrite bool_decide_eq_true, set_eq. split.
  - intros H.
    assert (H' : forall m, m ∈ ms <-> m = "GET" \/ m = "OPTIONS").
    { intros m. rewrite <- (elem_of_list_to_set (C := gset string)), H.
      rewrite elem_of_union, !elem_of_singleton. reflexivity. }
    split; [apply list_elem_of_In, H'; auto |].
    split; [apply list_elem_of_In, H'; auto |].
    intros m Hm%list_elem_of_In. now apply H'.
  - intros (Hget & Hopt & Hall) m.
    rewrite elem_of_list_to_set, list_elem_of_In. split.
    + intros Hm%Hall. set_solver.
    + intros Hm.
      assert (m = "GET" \/ m = "OPTIONS") as [-> | ->] by set_solver;
        assumption.
Qed.

(** ** The documentation modes *)

Lemma req_res_loop_value (sections : gmap string string) (ms : list string)
    (text : string) :
  Forall (fun m => is_Some (sections !! req_key m)) ms ->
  req_res_loop sections ms text = Ok (text +:+ req_res_text sections ms).
Proof.
  intros Hms. revert text. induction Hms as [|m ms [body Hm] _ IH]; intros text.
  - cbn. now rewrite app_nil_r.
  - cbn [req_res_loop]. fold (req_key m). rewrite Hm, IH.
    unfold req_res_text. cbn [List.map Str.concat]. rewrite Hm. cbn [default].
    now rewrite !app_assoc.
Qed.

Lemma req_res_loop_present (sections : gmap string string) (ms : list string)
    (text r : string) :
  req_res_loop sections ms text = Ok r ->
  Forall (fun m => is_Some (sections !! req_key m)) ms.
Proof.
  revert text. induction ms as [|m ms IH]; intros text; [constructor |].
  cbn [req_res_loop]. fold (req_key m).
  destruct (sections !! req_key m) as [body|] eqn:Hm; [| discriminate].
  intros H. constructor; [eauto | now apply IH in H].
Qed.

Lemma doc_entries_none (sections : gmap string string)
    (items : list (string * action_target)) :
  (forall method_name method,
      In (method_name, method) items ->
      sections !! section_key method_name method = None) ->
  doc_entries sections items = [].
Proof.
  induction items as [|[method_name method] items IH]; intros Hnone;
    [reflexivity |].
  cbn [doc_entries omap list_omap]. unfold doc_entry at 1. cbn [fst snd].
  rewrite (Hnone method_name method) by now left. cbn.
  apply IH. intros a b Hin. apply Hnone. now right.
Qed.

Section ModeProperties.

Variable dedent : string -> string.
Variable simplify_regex : string -> string.
Variable builtin_filter_backends : filter_backend -> option builtin_doc.
Variable conf : settings.

(** X9: in the explicit request/response mode the sections named
    [<method>_req] are read for every allowed method, in both branches:
    [_parse_req_res_doc] returns exactly when all of them exist, and then
    the text is the methods' labels and bodies in order, recorded as
    output text when the methods are exactly GET and OPTIONS and as
    input text otherwise. *)
Theorem explicit_mode_texts (extra : option pyobject) (c : view_class)
    (ms : list string) (sections : gmap string string) :
  _parse_docs_to_map (description_of dedent extra c) = Ok sections ->
  (Forall (fun m => is_Some (sections !! req_key m)) ms ->
   _parse_req_res_doc dedent extra c ms
   = Ok (if is_get_options ms
         then (None, Some (req_res_text sections ms))
         else (Some (req_res_text sections ms), None)))
  /\ (forall r,
        _parse_req_res_doc dedent extra c ms = Ok r ->
        Forall (fun m => is_Some (sections !! req_key m)) ms).
Proof.
  intros Hparse. unfold _parse_req_res_doc. rewrite Hparse. cbn. split.
  - intros Hms. rewrite (req_res_loop_value sections ms "" Hms).
    now destruct (is_get_options ms).
  - intros r.
    destruct (req_res_loop sections ms "") as [text|] eqn:Hloop.
    + intros _. now apply req_res_loop_present in Hloop.
    + now destruct (is_get_options ms).
Qed.

(** X10: a constructed Endpoint carries the schema attributes of one
    mode only: in the explicit mode neither [input_fields] nor
    [output_fields], and exactly one of the two texts; in the default
    mode neither text. *)
Theorem schema_attributes_exclusive (p : url_pattern)
    (prefix : option string) (counter : nat) (e : Endpoint) :
  fst (__init__ dedent simplify_regex builtin_filter_backends conf
         p prefix counter) = Ok e ->
  if req_res_autodocs (cls (callback p)) then
    input_fields e = None /\ output_fields e = None
    /\ (if is_get_options (methods e)
        then input_fields_text e = None /\ is_Some (output_fields_text e)
        else is_Some (input_fields_text e) /\ output_fields_text e = None)
  else input_fields_text e = None /\ output_fields_text e = None.
Proof.
  unfold __init__. cbn [fst].
  destruct (_get_complete_path simplify_regex p prefix); [| discriminate].
  destruct (_get_endpoint_name conf p); [| discriminate].
  destruct (declared_filter_backends _ _); [| discriminate].
  destruct (_get_doc dedent (callback p)) as [got|]; [| discriminate].
  cbn. destruct (req_res_autodocs _).
  - unfold _parse_req_res_doc.
    destruct (_parse_docs_to_map _) as [sections|]; [| discriminate].
    cbn. destruct (is_get_options _) eqn:Hro;
      (destruct (req_res_loop _ _ _); [| discriminate]);
      cbn; intros [= <-]; cbn; rewrite Hro; eauto.
  - destruct (declared_fields _ _); [| discriminate].
    cbn. intros [= <-]. auto.
Qed.

(** X11: when no declared method or action has a section, the docstring
    of the Endpoint is the whole description; and the docstring is empty
    only when the description is. *)
Theorem docstring_fallback (v : view) :
  (forall sections,
      _parse_docs_to_map (description_of dedent (find_extra_method v) (cls v))
      = Ok sections ->
      (forall method_name method,
          In (method_name, method) (actions_map v) ->
          sections !! section_key method_name method = None) ->
      _get_doc dedent v
      = Ok (find_extra_method v,
            description_of dedent (find_extra_method v) (cls v)))
  /\ (_get_doc dedent v = Ok (find_extra_method v, "") ->
      description_of dedent (find_extra_method v) (cls v) = "").
Proof.
  split.
  - intros sections Hparse Hnone.
    rewrite (_get_doc_value dedent v sections Hparse).
    now rewrite (doc_entries_none sections (actions_map v) Hnone).
  - destruct (_parse_docs_to_map_total
                (description_of dedent (find_extra_method v) (cls v)))
      as [sections Hparse].
    rewrite (_get_doc_value dedent v sections Hparse).
    destruct (doc_entries sections (actions_map v)) as [|entry entries].
    + now intros [= ->].
    + intros [= H]. apply render_entries_empty in H. discriminate.
Qed.

(** X12: [extra_method] is set only for a route with exactly one action,
    to an extra action of the view class that has the action's name; and
    it is set whenever the view class has such an extra action. *)
Theorem extra_method_for_single_action (v : view) :
  (forall x,
      find_extra_method v = Some x ->
      In x (get_extra_actions (cls v))
      /\ exists method_name, actions v = Some [(method_name, __name__ x)])
  /\ (forall method_name action x,
        actions v = Some [(method_name, action)] ->
        In x (get_extra_actions (cls v)) ->
        __name__ x = action ->
        is_Some (find_extra_method v)).
Proof.
  unfold find_extra_method. split.
  - intros x. destruct (actions v) as [[|[method_name action] [|? ?]]|];
      try discriminate.
    intros [Hin Hname%String.eqb_eq]%find_some. split; [assumption |].
    exists method_name. now rewrite Hname.
  - intros method_name action x -> Hin Hname.
    destruct (List.find _ _) as [y|] eqn:Hfind; [eauto |].
    apply (find_none _ _ Hfind) in Hin. rewrite Hname in Hin.
    now rewrite String.eqb_refl in Hin.
Qed.

End ModeProperties.

Lemma explicit_mode_texts_witness :
  _parse_req_res_doc (fun doc => doc) None (user_list_class (Some req_doc) true)
    ["GET"; "POST"]
  = Ok (if is_get_options ["GET"; "POST"]
        then (None, Some (req_res_text req_sections ["GET"; "POST"]))
        else (Some (req_res_text req_sections ["GET"; "POST"]), None)).
Proof.
  apply (proj1 (explicit_mode_texts (fun doc => doc) None
                  (user_list_class (Some req_doc) true) ["GET"; "POST"]
                  req_sections ltac:(vm_compute; reflexivity))).
  repeat constructor; vm_compute; eauto.
Defined.

Lemma schema_attributes_exclusive_witness :
  exists e,
    fst (construct documented_explicit (Some "/api") 0) = Ok e
    /\ input_fields e = None /\ output_fields e = None
    /\ is_Some (input_fields_text e) /\ output_fields_text e = None.
Proof.
  let r := eval vm_compute in (fst (construct documented_explicit (Some "/api") 0))
  in match r with Ok ?e => exists e end.
  split; [vm_compute; reflexivity |].
  refine (schema_attributes_exclusive (fun doc => doc) simplify_regex_plain
            no_builtin_docs default_settings documented_explicit (Some "/api") 0
            _ _).
  vm_compute. reflexivity.
Defined.

Lemma docstring_fallback_witness :
  _get_doc (fun doc => doc) (callback undivided)
  = Ok (find_extra_method (callback undivided),
        description_of (fun doc => doc)
          (find_extra_method (callback undivided)) (cls (callback undivided))).
Proof.
  apply (proj1 (docstring_fallback (fun doc => doc) (callback undivided))
           {[ "" := nl +:+ "Users of the site." ]}).
  - vm_compute. reflexivity.
  - intros method_name method H. vm_compute in H.
    destruct H as [[= <- <-] | [[= <- <-] | []]]; vm_compute; reflexivity.
Defined.

Lemma extra_method_for_single_action_witness :
  is_Some (find_extra_method set_password_view).
Proof.
  apply (proj2 (extra_method_for_single_action set_password_view)
           "post" "set_password" set_password).
  - reflexivity.
  - vm_compute. auto.
  - reflexivity.
Defined.

(** ** Filter backends *)

Lemma _collect_filter_backends_spec
    (builtin_filter_backends : filter_backend -> option builtin_doc)
    (c : view_class) (fs : list filter_backend)
    (ds : list (string * filter_doc)) :
  _collect_filter_backends builtin_filter_backends c fs = Ok ds ->
  Forall2 (fun f d => filter_backend_doc builtin_filter_backends c f = Ok d)
          fs ds.
Proof.
  revert ds. induction fs as [|f fs IH]; intros ds.
  - cbn. intros [= <-]. constructor.
  - cbn [_collect_filter_backends].
    destruct (filter_backend_doc builtin_filter_backends c f) as [d|] eqn:Hd;
      [| discriminate].
    cbn. destruct (_collect_filter_backends builtin_filter_backends c fs)
      as [rest|]; [| discriminate].
    cbn. intros [= <-]. constructor; [assumption | now apply IH].
Qed.

(** X13: the filter backends are recorded only for a non-empty
    [filter_backends] of the view class, one entry for each backend, in
    order, under the backend's name; a backend that the registry does not
    know is documented by its own docstring, and a registered search
    filter of a view without [search_filters] by the fixed text. *)
Theorem filter_backends_recorded
    (builtin_filter_backends : filter_backend -> option builtin_doc)
    (c : view_class) (r : option (list (string * filter_doc))) :
  declared_filter_backends builtin_filter_backends c = Ok r ->
  match r with
  | None => cls_filter_backends c = None \/ cls_filter_backends c = Some []
  | Some ds =>
      ds <> []
      /\ exists fs,
           cls_filter_backends c = Some fs
           /\ Forall2
                (fun f d =>
                   fst d = backend_name f
                   /\ (builtin_filter_backends f = None ->
                       snd d = FromGetdoc (getdoc (fb_class f)))
                   /\ (is_Some (builtin_filter_backends f) ->
                       fb_is_SearchFilter f = true ->
                       search_filters c = None ->
                       snd d = Rendered
                                 "Developer didn't specify any fields for search"))
                fs ds
  end.
Proof.
  unfold declared_filter_backends.
  destruct (cls_filter_backends c) as [[|f fs]|];
    [intros [= <-]; auto | | intros [= <-]; auto].
  destruct (_collect_filter_backends builtin_filter_backends c (f :: fs))
    as [ds|] eqn:Hds; [| discriminate].
  cbn. intros [= <-]. apply _collect_filter_backends_spec in Hds.
  split; [inversion Hds; discriminate |].
  exists (f :: fs). split; [reflexivity |].
  eapply Forall2_impl; [exact Hds |].
  intros g d. unfold filter_backend_doc, backend_name.
  destruct (builtin_filter_backends g) as [entry|].
  - destruct (fb_is_SearchFilter g).
    + destruct (search_filters c) as [fields|].
      * destruct entry; [discriminate |]. intros [= <-]. cbn.
        split; [reflexivity |]. split; [discriminate | discriminate].
      * intros [= <-]. cbn. split; [reflexivity |].
        split; [discriminate | reflexivity].
    + intros [= <-]. cbn. split; [reflexivity |].
      split; [discriminate | discriminate].
  - intros [= <-]. cbn. split; [reflexivity |].
    split; [reflexivity |]. intros [? H]. discriminate.
Qed.

Lemma filter_backends_recorded_witness :
  [("SearchFilter",
    Rendered "Developer didn't specify any fields for search");
   ("OwnFilter", FromGetdoc (Some "Own."))] <> []
  /\ exists fs,
       cls_filter_backends (cls set_password_view) = Some fs
       /\ Forall2
            (fun f d =>
               fst d = backend_name f
               /\ (search_docs f = None ->
                   snd d = FromGetdoc (getdoc (fb_class f)))
               /\ (is_Some (search_docs f) ->
                   fb_is_SearchFilter f = true ->
                   search_filters (cls set_password_view) = None ->
                   snd d = Rendered
                             "Developer didn't specify any fields for search"))
            fs
            [("SearchFilter",
              Rendered "Developer didn't specify any fields for search");
             ("OwnFilter", FromGetdoc (Some "Own."))].
Proof.
  apply (filter_backends_recorded search_docs (cls set_password_view)
           (Some [("SearchFilter",
                   Rendered "Developer didn't specify any fields for search");
                  ("OwnFilter", FromGetdoc (Some "Own."))])).
  vm_compute. reflexivity.
Defined.

(** ** Further properties of the field schema resolver *)

Lemma plain_field_entry (resolve : obj -> result (list field_data))
    (meta_model : option (list (string * option string)))
    (key : string) (field : obj) :
  is_plain_field field = true ->
  field_entry resolve meta_model key field = Ok (plain_descriptor (key, field)).
Proof.
  unfold is_plain_field. intros [[Hser Hrel]%andb_true_iff Hmany]%andb_true_iff.
  apply negb_true_iff in Hser, Hrel, Hmany.
  unfold field_entry, help_text_of, choices_of, plain_descriptor.
  destruct field as [a is_serializer fields meta child].
  cbn [is_BaseSerializer attrs_of sub_fields_of fst snd] in *.
  rewrite Hser, Hrel, Hmany. now destruct (has_many a).
Qed.

Lemma resolve_items_plain (meta_model : option (list (string * option string)))
    (items : list (string * obj)) :
  Forall (fun item => is_plain_field (snd item) = true) items ->
  resolve_items meta_model items = Ok (List.map plain_descriptor items).
Proof.
  induction 1 as [|[key field] items Hfield _ IH]; [reflexivity |].
  cbn [resolve_items List.map]. cbn [snd] in Hfield.
  rewrite (plain_field_entry _ meta_model key field Hfield). cbn.
  fold (resolve_items meta_model). now rewrite IH.
Qed.

(** X14: an object without [get_fields] resolves to no field; a
    serializer whose fields are neither serializers nor relations always
    resolves, without reading its [Meta], to one descriptor for each
    field, in order, that copies the field's name, type, flags, help text
    and choices and has no [sub_fields]. *)
Theorem flat_serializer_resolves (serializer : obj) :
  match get_fields_of serializer with
  | None => _get_serializer_fields serializer = Ok []
  | Some items =>
      Forall (fun item => is_plain_field (snd item) = true) items ->
      _get_serializer_fields serializer = Ok (List.map plain_descriptor items)
  end.
Proof.
  destruct (get_fields_of serializer) as [items|] eqn:Hitems.
  - intros Hplain.
    rewrite (_get_serializer_fields_items serializer items Hitems).
    now apply resolve_items_plain.
  - destruct serializer as [a b fields meta child]. cbn in Hitems.
    now subst fields.
Qed.

Lemma flat_serializer_resolves_witness :
  _get_serializer_fields user_serializer
  = Ok (List.map plain_descriptor [("name", char_field)]).
Proof.
  apply (flat_serializer_resolves user_serializer).
  repeat constructor.
Defined.

Lemma resolve_items_raises (meta_model : option (list (string * option string)))
    (pre post : list (string * obj)) (key : string) (field : obj) (e : exn) :
  Forall (fun item => is_plain_field (snd item) = true) pre ->
  field_entry _get_serializer_fields meta_model key field = Raise e ->
  resolve_items meta_model (pre ++ (key, field) :: post) = Raise e.
Proof.
  intros Hpre Hfield. induction Hpre as [|[k f] pre Hf _ IH].
  - cbn [app resolve_items]. now rewrite Hfield.
  - cbn [app resolve_items]. cbn [snd] in Hf.
    rewrite (plain_field_entry _ meta_model k f Hf). cbn.
    fold (resolve_items meta_model). now rewrite IH.
Qed.

(** X15: a relation without a resolvable queryset model, declared on a
    serializer whose [Meta.model] does not resolve, makes the resolver
    raise [AttributeError] instead of returning the other fields. *)
Theorem relation_without_model_raises (serializer : obj)
    (pre post : list (string * obj)) (key : string) (field : obj) :
  get_fields_of serializer = Some (pre ++ (key, field) :: post) ->
  meta_model_of serializer = None ->
  Forall (fun item => is_plain_field (snd item) = true) pre ->
  is_BaseSerializer field = false ->
  is_RelatedField (attrs_of field) || is_ManyRelatedField (attrs_of field)
  = true ->
  queryset_model (attrs_of field) = None ->
  _get_serializer_fields serializer = Raise (AttributeError "Meta").
Proof.
  intros Hitems Hmeta Hpre Hser Hrel Hqs.
  rewrite (_get_serializer_fields_items serializer _ Hitems), Hmeta.
  apply resolve_items_raises; [assumption |].
  unfold field_entry, help_text_of.
  destruct field as [a is_serializer fields meta child].
  cbn [is_BaseSerializer attrs_of sub_fields_of] in *. subst is_serializer.
  rewrite Hqs.
  destruct (has_many a), (is_RelatedField a), (is_ManyRelatedField a);
    try discriminate; reflexivity.
Qed.

Lemma relation_without_model_raises_witness :
  _get_serializer_fields ticket_serializer = Raise (AttributeError "Meta").
Proof.
  apply (relation_without_model_raises ticket_serializer
           [("title", char_field)] [] "owner" owner_field);
    try reflexivity.
  repeat constructor.
Defined.

(** ** Identifiers by position *)

Section IdentifierProperties.

Variable dedent : string -> string.
Variable simplify_regex : string -> string.
Variable builtin_filter_backends : filter_backend -> option builtin_doc.
Variable conf : settings.

(** X16: every construction, failed or not, takes one identifier: after
    a run over [n] routes the counter has grown by [n], and the Endpoint
    constructed from the route at position [i] has the start value plus
    [i] as its [id], however many constructions before it raised. *)
Theorem endpoint_id_by_position (routes : list (url_pattern * option string))
    (counter : nat) :
  snd (construct_all dedent simplify_regex builtin_filter_backends conf
         routes counter) = counter + length routes
  /\ forall i e,
       fst (construct_all dedent simplify_regex builtin_filter_backends conf
              routes counter) !! i = Some (Ok e) ->
       id e = counter + i.
Proof.
  split; [apply construct_all_counter |].
  intros i e. apply construct_all_id.
Qed.

End IdentifierProperties.

Lemma endpoint_id_by_position_witness :
  exists e,
    fst (construct_all (fun doc => doc) simplify_regex_plain no_builtin_docs
           default_settings
           [(user_list, None); (explicit_user_list, Some "/api");
            (user_list, Some "/api")] 4) !! 2 = Some (Ok e)
    /\ id e = 4 + 2.
Proof.
  let r := eval vm_compute in
    (fst (construct_all (fun doc => doc) simplify_regex_plain no_builtin_docs
            default_settings
            [(user_list, None); (explicit_user_list, Some "/api");
             (user_list, Some "/api")] 4) !! 2)
  in match r with Some (Ok ?e) => exists e end.
  split; [vm_compute; reflexivity |].
  refine (proj2 (endpoint_id_by_position (fun doc => doc) simplify_regex_plain
                   no_builtin_docs default_settings
                   [(user_list, None); (explicit_user_list, Some "/api");
                    (user_list, Some "/api")] 4) 2 _ _).
  vm_compute. reflexivity.
Defined.

(** ** Absent and empty declarations *)

Section DeclarationProperties.

Variable dedent : string -> string.
Variable simplify_regex : string -> string.
Variable builtin_filter_backends : filter_backend -> option builtin_doc.
Variable conf : settings.

(** X17: [serializer_class = None] on the view class is treated like no
    serializer class: the Endpoint is constructed without [input_fields]
    and [output_fields].  [response_serializer_class = None] is not: it is
    called, and the constructor raises. *)
Theorem none_serializer_classes (p : url_pattern) (prefix : option string)
    (counter : nat) :
  req_res_autodocs (cls (callback p)) = false ->
  (response_serializer_class (cls (callback p)) = Some None ->
   exists e,
     fst (__init__ dedent simplify_regex builtin_filter_backends conf
            p prefix counter) = Raise e)
  /\ (serializer_class (cls (callback p)) = Some None ->
      response_serializer_class (cls (callback p)) = None ->
      is_ok (_get_complete_path simplify_regex p prefix) = true ->
      is_ok (_get_endpoint_name conf p) = true ->
      is_ok (declared_filter_backends builtin_filter_backends
               (cls (callback p))) = true ->
      exists e,
        fst (__init__ dedent simplify_regex builtin_filter_backends conf
               p prefix counter) = Ok e
        /\ input_fields e = None /\ output_fields e = None).
Proof.
  intros Hmode. split.
  - intros Hresponse.
    assert (Hfields : exists e,
               declared_fields (cls (callback p))
                 (_get_allowed_methods (callback p)) = Raise e).
    { unfold declared_fields. rewrite Hresponse.
      destruct (serializer_class (cls (callback p))) as [[serializer|]|];
        cbn; eauto.
      destruct (_get_serializer_fields serializer); cbn; [| eauto].
      destruct (is_get_options _); cbn; eauto. }
    destruct Hfields as [e Hfields].
    destruct (_get_complete_path simplify_regex p prefix) as [path|e1] eqn:Hpath;
      [| exists e1; unfold __init__; cbn [fst]; now rewrite Hpath].
    destruct (_get_endpoint_name conf p) as [nm|e1] eqn:Hname;
      [| exists e1; unfold __init__; cbn [fst]; now rewrite Hpath, Hname].
    destruct (declared_filter_backends builtin_filter_backends
                (cls (callback p))) as [bs|e1] eqn:Hbs;
      [| exists e1; unfold __init__; cbn [fst]; now rewrite Hpath, Hname, Hbs].
    exists e.
    rewrite (init_after_preamble dedent simplify_regex builtin_filter_backends
               conf p prefix counter path nm bs) by assumption.
    destruct (_get_doc_total dedent (callback p)) as [doc ->].
    cbn. rewrite Hmode, Hfields. reflexivity.
  - intros Hser Hresponse Hpath Hname Hbs.
    destruct (_get_complete_path simplify_regex p prefix) as [path|] eqn:Hp;
      [| discriminate].
    destruct (_get_endpoint_name conf p) as [nm|] eqn:Hn; [| discriminate].
    destruct (declared_filter_backends builtin_filter_backends
                (cls (callback p))) as [bs|] eqn:Hb; [| discriminate].
    destruct (init_default_mode dedent simplify_regex builtin_filter_backends
                conf p prefix counter path nm bs (None, None))
      as (e & He & _ & Hin & Hout); try assumption.
    { unfold declared_fields. now rewrite Hser, Hresponse. }
    eauto.
Qed.

End DeclarationProperties.

Lemma none_serializer_classes_witness :
  (exists e, fst (construct (unserialized (Some None)) (Some "/api/") 0) = Raise e)
  /\ (exists e,
        fst (construct (unserialized None) (Some "/api/") 0) = Ok e
        /\ input_fields e = None /\ output_fields e = None).
Proof.
  split.
  - apply (proj1 (none_serializer_classes (fun doc => doc) simplify_regex_plain
                    no_builtin_docs default_settings
                    (unserialized (Some None)) (Some "/api/") 0 eq_refl)).
    reflexivity.
  - apply (proj2 (none_serializer_classes (fun doc => doc) simplify_regex_plain
                    no_builtin_docs default_settings
                    (unserialized None) (Some "/api/") 0 eq_refl));
      vm_compute; reflexivity.
Defined.

(** ** Names taken from the view *)

Lemma space_capitals_unchanged (whole s : string) :
  (forall x, Str.mem x s = true -> Chr.is_upper x = true ->
             Str.startswith (String x "") whole = true) ->
  space_capitals whole s = s.
Proof.
  induction s as [|c s IH]; intros Hcaps; [reflexivity |].
  cbn [space_capitals].
  rewrite IH.
  - destruct (Chr.is_upper c) eqn:Hc; [| reflexivity].
    rewrite (Hcaps c); [reflexivity | | assumption].
    cbn [Str.mem]. now rewrite Ascii.eqb_refl.
  - intros x Hx. apply Hcaps. cbn [Str.mem]. rewrite Hx. apply orb_true_r.
Qed.

(** X18: with names taken from the view, a capital letter of the view
    name that is also its first character gets no space before it; a view
    name of ASCII characters whose capitals all equal its first character
    is therefore not split into words at all: the display name is the
    view name in title case, as long as the view name. *)
Theorem view_name_repeated_initial (conf : settings) (p : url_pattern) :
  AUTODOCS_ENDPOINT_NAMES conf = Some "view" ->
  is_ascii (view_name (callback p)) = true ->
  (forall x,
      Str.mem x (view_name (callback p)) = true ->
      Chr.is_upper x = true ->
      Str.startswith (String x "") (view_name (callback p)) = true) ->
  _get_endpoint_name conf p = Ok (humanize (view_name (callback p)))
  /\ String.length (humanize (view_name (callback p)))
     = String.length (view_name (callback p)).
Proof.
  intros Hview _ Hcaps. unfold _get_endpoint_name.
  rewrite bool_decide_true by assumption.
  rewrite (space_capitals_unchanged _ _ Hcaps).
  split; [reflexivity | apply humanize_length].
Qed.

Lemma view_name_repeated_initial_witness :
  _get_endpoint_name view_names (unserialized None)
  = Ok (humanize (view_name (callback (unserialized None))))
  /\ String.length (humanize (view_name (callback (unserialized None))))
     = String.length (view_name (callback (unserialized None))).
Proof.
  apply (view_name_repeated_initial view_names (unserialized None)).
  - reflexivity.
  - reflexivity.
  - intros x Hx Hup. destruct x as [[] [] [] [] [] [] [] []];
      vm_compute in Hx, Hup; try discriminate; reflexivity.
Defined.

(** ** Views without a docstring *)

(** X19: for a view class without a docstring, the description is the
    text of [None] (the fallback text of [get_view_description] is not
    used), and so is the docstring of the Endpoint, given that [dedent]
    leaves that word as it is and that no declared method is looked up
    under the empty name. *)
Theorem undocumented_view_docstring (dedent : string -> string) (v : view) :
  dedent "None" = "None" ->
  __doc__ (cls_object (cls v)) = None ->
  find_extra_method v = None ->
  (forall method_name method,
      In (method_name, method) (actions_map v) ->
      section_key method_name method <> "") ->
  get_view_description dedent (cls_object (cls v)) = "None"
  /\ _get_doc dedent v = Ok (None, "None").
Proof.
  intros Hdedent Hdoc Hextra Hkeys.
  assert (Hdesc : get_view_description dedent (cls_object (cls v)) = "None").
  { unfold get_view_description. now rewrite Hdoc. }
  split; [assumption |].
  assert (Hparse : _parse_docs_to_map
                     (description_of dedent (find_extra_method v) (cls v))
                   = Ok {[ "" := nl +:+ "None" ]}).
  { rewrite Hextra. cbn [description_of]. rewrite Hdesc.
    vm_compute. reflexivity. }
  rewrite (_get_doc_value dedent v _ Hparse).
  rewrite doc_entries_none.
  - rewrite Hextra. cbn [description_of]. now rewrite Hdesc.
  - intros method_name method Hin. apply lookup_singleton_ne.
    apply not_eq_sym. now apply Hkeys.
Qed.

Lemma undocumented_view_docstring_witness :
  get_view_description (fun doc => doc)
    (cls_object (cls (callback (unserialized None)))) = "None"
  /\ _get_doc (fun doc => doc) (callback (unserialized None)) = Ok (None, "None").
Proof.
  apply (undocumented_view_docstring (fun doc => doc)
           (callback (unserialized None)));
    try reflexivity.
  intros method_name method H. vm_compute in H.
  destruct H as [[= <- <-] | []]. discriminate.
Defined.

(** ** The body of every section *)

(** The last header line with a given name. *)
Lemma last_header_named (k : string) (lines : list string) :
  Forall (fun l => header_match l = true -> section_name l <> k) lines
  \/ exists pre h rest,
       lines = pre ++ h :: rest
       /\ header_match h = true /\ section_name h = k
       /\ Forall (fun l => header_match l = true -> section_name l <> k) rest.
Proof.
  induction lines as [|x lines [IH | (pre & h & rest & -> & Hh & Hk & Hrest)]].
  - left. constructor.
  - destruct (header_match x) eqn:Hx.
    + destruct (decide (section_name x = k)) as [Hk | Hk].
      * right. exists [], x, lines. auto.
      * left. constructor; auto.
    + left. constructor; [intros H; congruence | assumption].
  - right. exists (x :: pre), h, rest. auto.
Qed.

(** The continuation lines at the start of a list of lines. *)
Lemma leading_continuation (lines : list string) :
  exists cs post,
    lines = cs ++ post
    /\ Forall (fun l => header_match l = false) cs
    /\ section_ends post.
Proof.
  induction lines as [|x lines (cs & post & -> & Hcs & Hpost)].
  - exists [], []. repeat split. constructor.
  - destruct (header_match x) eqn:Hx.
    + exists [], (x :: cs ++ post). repeat split; [constructor | exact Hx].
    + exists (x :: cs), post. repeat split; [now constructor | assumption].
Qed.

(** C6, amended: for every docstring and every section of the parser's
    output, the body is the trimmed text after the colon of the last
    header line with the section's name (nothing for the unnamed leading
    section), followed by the non-header lines between that header line
    and the next header line, each after a line break and with every tab
    replaced by exactly two spaces; no tab of these lines is left.  (The
    text after the colon is trimmed only, and the lines after an earlier
    header line of the same name are not in the output.) *)
Theorem section_bodies_tabs_expanded (doc : string) :
  exists m,
    _parse_docs_to_map doc = Ok m
    /\ forall k body,
         m !! k = Some body ->
         exists lead cs post,
           (k = "" /\ lead = "" /\ Str.splitlines doc = cs ++ post
            \/ exists pre h,
                 Str.splitlines doc = pre ++ h :: cs ++ post
                 /\ header_match h = true /\ section_name h = k
                 /\ lead = Str.strip (section_lead h))
           /\ Forall (fun l => header_match l = false) cs
           /\ section_ends post
           /\ Forall (fun l => header_match l = true -> section_name l <> k)
                     post
           /\ body = lead +:+ continuation cs
           /\ Str.mem Chr.TAB (continuation cs) = false.
Proof.
  destruct (_parse_docs_to_map_total doc) as [m Hm]. exists m.
  split; [assumption |]. intros k body Hk.
  destruct (decide (k = "")) as [-> | Hne].
  - destruct (leading_continuation (Str.splitlines doc))
      as (cs & post & Hlines & Hcs & Hpost).
    assert (Hnames : Forall (fun l => header_match l = true ->
                                      section_name l <> "") post).
    { apply Forall_forall. intros l _. apply header_name_nonempty. }
    exists "", cs, post. split; [left; auto |].
    split; [assumption |]. split; [assumption |]. split; [assumption |].
    split; [| apply continuation_no_tab].
    unfold _parse_docs_to_map in Hm. rewrite Hlines in Hm.
    rewrite (parse_lines_continuation cs post "" "") in Hm
      by (assumption || apply lookup_singleton_eq).
    destruct (parse_lines_section_done post "" ("" +:+ continuation cs)
                (<["" := "" +:+ continuation cs]> {[ "" := "" ]}))
      as (m' & Hm' & Hbody); [assumption | assumption | apply lookup_insert_eq |].
    rewrite Hm in Hm'. injection Hm' as <-. congruence.
  - destruct (last_header_named k (Str.splitlines doc))
      as [Hnone | (pre & h & rest & Hlines & Hh & Hname & Hrest)].
    + exfalso.
      assert (Hsome : is_Some (m !! k)) by eauto.
      apply (parse_lines_keys _ _ _ m k Hm) in Hsome
        as [[? Hinit] | (l & Hin & Hl & Hlk)].
      * rewrite lookup_singleton_ne in Hinit by congruence. discriminate.
      * rewrite Forall_forall in Hnone. apply list_elem_of_In in Hin.
        now apply (Hnone l Hin Hl).
    + destruct (leading_continuation rest) as (cs & post & -> & Hcs & Hpost).
      apply Forall_app in Hrest as [_ Hrest].
      exists (Str.strip (section_lead h)), cs, post.
      split; [right; exists pre, h; auto |].
      split; [assumption |]. split; [assumption |]. split; [assumption |].
      split; [| apply continuation_no_tab].
      destruct (section_body_after_last_header doc pre h cs post)
        as (m' & Hm' & Hbody & _); try assumption.
      { now rewrite Hname. }
      rewrite Hm in Hm'. injection Hm' as <-. rewrite Hname in Hbody.
      congruence.
Qed.

Lemma section_bodies_tabs_expanded_witness :
  exists lead cs post,
    ("GET" = "" /\ lead = "" /\ Str.splitlines tabbed_doc = cs ++ post
     \/ exists pre h,
          Str.splitlines tabbed_doc = pre ++ h :: cs ++ post
          /\ header_match h = true /\ section_name h = "GET"
          /\ lead = Str.strip (section_lead h))
    /\ Forall (fun l => header_match l = false) cs
    /\ section_ends post
    /\ Forall (fun l => header_match l = true -> section_name l <> "GET") post
    /\ "lists" +:+ nl +:+ "  a  b" = lead +:+ continuation cs
    /\ Str.mem Chr.TAB (continuation cs) = false.
Proof.
  destruct (section_bodies_tabs_expanded tabbed_doc) as (m & Hm & Hbodies).
  apply (Hbodies "GET" ("lists" +:+ nl +:+ "  a  b")).
  vm_compute in Hm. injection Hm as <-. vm_compute. reflexivity.
Defined.

(** A header line that opens a section again starts its body afresh:
    the continuation line of the first [GET] section is not in the
    output. *)
Lemma reopened_section_overwritten :
  _parse_docs_to_map
    ("GET: one" +:+ nl +:+ tab +:+ "kept?" +:+ nl +:+ "GET: two")
  = Ok (<["GET" := "two"]> {[ "" := "" ]}).
Proof. vm_compute. reflexivity. Qed.
